(** * naukri-api-client: session and cookie lifecycle of [NaukriAPIClient]

    A shallow embedding of [main.py] (class [NaukriAPIClient]) and of the
    command line entry point [naukri_client.py].  Python values that come
    from JSON documents are modelled by the type [json]; the dynamic checks
    of the interpreter (iteration, subscripting, membership, comparison) are
    functions into [result], whose [Raise] constructor carries the class of
    the exception.  The methods of the client run in a state-and-exception
    monad over a [World] that holds the cookie file, the cookie jar of the
    [requests] session, the clock, the scripted replies of the remote
    service, what the file system does when the cookie file is written or
    removed, and the trace of observable actions. *)

From Stdlib Require Import ZArith List String Ascii Bool Lia.
Import ListNotations.

Local Open Scope string_scope.
Local Open Scope list_scope.
Local Open Scope Z_scope.

(** ** Python values and the dynamic operations the client applies to them *)

Module Py.

(** Values produced by [json.load] / [resp.json()].  [JNull] is Python's
    [None], [JObj] is a [dict] with its fields in insertion order (keys
    are unique, as in a Python dict).  Non-integral numbers are not
    modelled. *)
#[warnings="-register-all"]
Inductive json : Type :=
| JNull
| JBool (b : bool)
| JInt (n : Z)
| JStr (s : string)
| JArr (items : list json)
| JObj (fields : list (string * json)).

(** Exception classes that the program raises or catches. *)
Inductive exn : Type :=
| ValueError
| TypeError
| KeyError
| IndexError
| AttributeError
| FileNotFoundError
| PermissionError
| IsADirectoryError
| HTTPError
| ConnectionError
| JSONDecodeError
| StopIteration.

(** [except requests.RequestException]: [HTTPError] and [ConnectionError]
    derive from it, and so does the [JSONDecodeError] that [resp.json()]
    raises in current versions of [requests]. *)
Definition is_RequestException (e : exn) : bool :=
  match e with
  | HTTPError | ConnectionError | JSONDecodeError => true
  | _ => false
  end.

Definition is_FileNotFoundError (e : exn) : bool :=
  match e with
  | FileNotFoundError => true
  | _ => false
  end.

(** [except Exception] *)
Definition is_Exception (e : exn) : bool := true.

Inductive result (A : Type) : Type :=
| Ok (a : A)
| Raise (e : exn).
Arguments Ok {A} a.
Arguments Raise {A} e.

Definition rbind {A B} (r : result A) (k : A -> result B) : result B :=
  match r with
  | Ok a => k a
  | Raise e => Raise e
  end.

(** Truth value of an object, as tested by [if], [not], [and], [or]. *)
Definition truthy (v : json) : bool :=
  match v with
  | JNull => false
  | JBool b => b
  | JInt n => negb (n =? 0)
  | JStr s => negb (String.eqb s "")
  | JArr items => match items with [] => false | _ => true end
  | JObj fields => match fields with [] => false | _ => true end
  end.

Definition isdict (v : json) : bool :=
  match v with
  | JObj _ => true
  | _ => false
  end.

Fixpoint lookup (k : string) (fields : list (string * json)) : option json :=
  match fields with
  | [] => None
  | (k', v) :: rest => if String.eqb k k' then Some v else lookup k rest
  end.

(** [sub in s] on two strings: substring test. *)
Fixpoint contains (sub s : string) : bool :=
  String.prefix sub s ||
  match s with
  | EmptyString => false
  | String _ rest => contains sub rest
  end.

Definition is_str (k : string) (v : json) : bool :=
  match v with
  | JStr s => String.eqb s k
  | _ => false
  end.

(** [k in c] for a string [k]. *)
Definition py_in (k : string) (c : json) : result bool :=
  match c with
  | JObj fields => Ok (match lookup k fields with Some _ => true | None => false end)
  | JArr items => Ok (existsb (is_str k) items)
  | JStr s => Ok (contains k s)
  | JNull | JBool _ | JInt _ => Raise TypeError
  end.

(** [c[k]] for a string [k]. *)
Definition getitem (c : json) (k : string) : result json :=
  match c with
  | JObj fields =>
      match lookup k fields with
      | Some v => Ok v
      | None => Raise KeyError
      end
  | _ => Raise TypeError
  end.

(** [c[0]] *)
Definition getitem0 (c : json) : result json :=
  match c with
  | JArr items =>
      match items with
      | x :: _ => Ok x
      | [] => Raise IndexError
      end
  | JStr s =>
      match s with
      | String a _ => Ok (JStr (String a EmptyString))
      | EmptyString => Raise IndexError
      end
  | JObj _ => Raise KeyError
  | JNull | JBool _ | JInt _ => Raise TypeError
  end.

(** [c.get(k, default)]: only a dict has the method. *)
Definition get (c : json) (k : string) (default : json) : result json :=
  match c with
  | JObj fields =>
      Ok (match lookup k fields with Some v => v | None => default end)
  | _ => Raise AttributeError
  end.

Fixpoint chars (s : string) : list json :=
  match s with
  | EmptyString => []
  | String a rest => JStr (String a EmptyString) :: chars rest
  end.

(** The elements that [for c in v] visits. *)
Definition iter (v : json) : result (list json) :=
  match v with
  | JArr items => Ok items
  | JObj fields => Ok (map (fun kv => JStr (fst kv)) fields)
  | JStr s => Ok (chars s)
  | JNull | JBool _ | JInt _ => Raise TypeError
  end.

(** [v < n] for an integer [n]; [bool] is a subclass of [int]. *)
Definition lt_int (v : json) (n : Z) : result bool :=
  match v with
  | JInt m => Ok (m <? n)
  | JBool b => Ok ((if b then 1 else 0) <? n)
  | _ => Raise TypeError
  end.

(** [s.rstrip(".")] *)
Fixpoint rstrip_dot (s : string) : string :=
  match s with
  | EmptyString => EmptyString
  | String a rest =>
      match rstrip_dot rest with
      | EmptyString => if Ascii.eqb a "."%char then EmptyString else String a EmptyString
      | rest' => String a rest'
      end
  end.

(** [v.rstrip(".")] on an arbitrary object: only [str] has the method. *)
Definition rstrip (v : json) : result string :=
  match v with
  | JStr s => Ok (rstrip_dot s)
  | _ => Raise AttributeError
  end.

End Py.
Export Py.

(** ** The cookie jar of the [requests] session

    [self.session.cookies] is a [RequestsCookieJar] of the [requests]
    library.  The client uses four of its operations: [set], iteration,
    truth value (emptiness) and [clear].  A cookie is stored under the slot
    (domain, path, name); the jar is kept here as the sequence of its
    cookies, one per slot.  The library iterates slot by slot, grouped by
    domain and path; the position that [store] gives to a new slot does
    not reproduce that grouping, and the properties below that speak of a
    cookie added to a jar that already holds others do not say where it
    goes. *)

Module CookieJar.

Record Cookie : Type := mkCookie
  { name : json;
    value : json;
    domain : string;
    path : string;
    expires : option Z }.

Definition Jar : Type := list Cookie.

(** Names are keys of a Python dict: they must be hashable, and [True] and
    [1] (likewise [False] and [0]) are the same key. *)
Definition hashable (v : json) : bool :=
  match v with
  | JArr _ | JObj _ => false
  | _ => true
  end.

Definition as_int (v : json) : option Z :=
  match v with
  | JBool b => Some (if b then 1 else 0)
  | JInt n => Some n
  | _ => None
  end.

Definition key_eq (a b : json) : bool :=
  match a, b with
  | JNull, JNull => true
  | JStr s, JStr t => String.eqb s t
  | _, _ =>
      match as_int a, as_int b with
      | Some m, Some n => m =? n
      | _, _ => false
      end
  end.

Definition same_slot (c d : Cookie) : bool :=
  String.eqb (domain c) (domain d) && String.eqb (path c) (path d)
  && key_eq (name c) (name d).

Definition dquote : ascii := ascii_of_nat 34.
Definition backslash : ascii := ascii_of_nat 92.

Fixpoint ends_with_dquote (s : string) : bool :=
  match s with
  | EmptyString => false
  | String a EmptyString => Ascii.eqb a dquote
  | String _ rest => ends_with_dquote rest
  end.

Definition quoted (s : string) : bool :=
  match s with
  | String a _ => Ascii.eqb a dquote && ends_with_dquote s
  | EmptyString => false
  end.

(** [s.replace] of every backslash followed by a double quote by the empty
    string (occurrences are found from left to right and do not overlap). *)
Fixpoint drop_escaped_quotes (s : string) : string :=
  match s with
  | String a tl =>
      match tl with
      | String b rest =>
          if Ascii.eqb a backslash && Ascii.eqb b dquote
          then drop_escaped_quotes rest
          else String a (drop_escaped_quotes tl)
      | EmptyString => s
      end
  | EmptyString => s
  end.

(** [RequestsCookieJar.set_cookie] removes escaped quotes from a string
    value that is wrapped in double quotes before it stores the cookie. *)
Definition unquote (v : json) : json :=
  match v with
  | JStr s => if quoted s then JStr (drop_escaped_quotes s) else v
  | _ => v
  end.

Fixpoint store (c : Cookie) (J : Jar) : Jar :=
  match J with
  | [] => [c]
  | d :: rest => if same_slot c d then c :: rest else d :: store c rest
  end.

Definition put (c : Cookie) (J : Jar) : Jar :=
  store (mkCookie (name c) (unquote (value c)) (domain c) (path c) (expires c)) J.

(** [jar.set_cookie(c)].  The test on the value calls [value.startswith];
    releases of the library up to 2.32.3 guard it with [hasattr], so that a
    value that is not a string is stored as it is, and later releases do
    not, so that such a value raises [AttributeError].  [guard] tells which
    of the two the installed release does.  The name becomes a dict key
    afterwards. *)
Definition set_cookie (guard : bool) (c : Cookie) (J : Jar) : result Jar :=
  match value c with
  | JStr _ => if hashable (name c) then Ok (put c J) else Raise TypeError
  | _ =>
      if guard
      then if hashable (name c) then Ok (put c J) else Raise TypeError
      else Raise AttributeError
  end.

(** [remove_cookie_by_name(jar, name, domain=d, path=None)] *)
Definition remove_cookie_by_name (n d : json) (J : Jar) : Jar :=
  filter
    (fun c =>
       negb (key_eq (name c) n
             && match d with
                | JNull => true
                | JStr s => String.eqb s (domain c)
                | _ => false
                end))
    J.

(** [jar.set(name=n, value=v, domain=d)]: a [None] value unsets the cookie;
    otherwise [create_cookie] builds a cookie with path ["/"] and no expiry
    (it calls [d.startswith], which only a [str] has). *)
Definition set (guard : bool) (n v d : json) (J : Jar) : result Jar :=
  match v with
  | JNull => Ok (remove_cookie_by_name n d J)
  | _ =>
      match d with
      | JStr ds => set_cookie guard (mkCookie n v ds "/" None) J
      | _ => Raise AttributeError
      end
  end.

(** Cookies that a response carries in [Set-Cookie] headers are merged into
    the jar by the session; their names and values are strings. *)
Definition extract_cookies (cs : list Cookie) (J : Jar) : Jar :=
  fold_left (fun acc c => put c acc) cs J.

End CookieJar.
Export CookieJar.

(** ** The world the client runs in *)

(** The cookie file [cookies.json]: missing, present but not loadable (the
    [open] or the [json.load] raises), or present with a JSON document. *)
Inductive FileState : Type :=
| FAbsent
| FUnreadable
| FJson (doc : json).

(** Endpoints.  The base URL is a constant prefix of the first four and is
    left out; the resume endpoint embeds the profile id. *)
Inductive Url : Type :=
| LoginUrl
| ProfileUrl
| FileUploadUrl
| AdvResumeUrl (profile_id : json)
| FullProfilesUrl.

Inductive Method : Type := GET | POST.

(** Request bodies: none, a JSON payload ([json=...]), or the multipart
    form of the file upload (fields [formKey], [fileName] and
    [uploadCallback], and the file itself, named after the last component
    of [file_path]). *)
Inductive Body : Type :=
| NoBody
| JsonBody (payload : json)
| UploadForm (form_key : string) (file_path : string).

Record Request : Type := mkRequest
  { meth : Method;
    url : Url;
    headers : list (string * string);
    body : Body }.

(** A response: status code, body ([None] when it is not a JSON document)
    and the cookies of its [Set-Cookie] headers. *)
Record Response : Type := mkResponse
  { status_code : Z;
    content : option json;
    set_cookies : list Cookie }.

(** What the network gives back for one request: a response, or a failure
    of the transport ([requests.ConnectionError]). *)
Inductive Reply : Type :=
| Answer (r : Response)
| NetworkFailure.

(** [open(path, "rb")] on the resume file. *)
Inductive OpenResult : Type :=
| Opened
| Missing
| Denied.

(** Observable actions, in the order they happen. *)
Inductive Event : Type :=
| EvExpiryCheck
| EvHttp (rq : Request)
| EvFileWrite (doc : json)
| EvFileDelete.

(** The world.  Besides the cookie file, the jar of the session, the
    clock, the scripted replies, the resume files, the environment and the
    trace, it tells what the file system does when the cookie file is
    opened for writing and when it is removed ([None]: the operation is
    carried out; [Some e]: it raises [e], an [OSError] such as
    [IsADirectoryError] or [PermissionError], and the file stays as it
    is), and whether the installed release of [requests] guards its test
    on cookie values (see [set_cookie]). *)
Record World : Type := mkWorld
  { cookie_file : FileState;
    cookies : Jar;
    clock : Z;
    server : list Reply;
    disk : string -> OpenResult;
    environ : string -> option string;
    trace : list Event;
    write_fault : option exn;
    unlink_fault : option exn;
    hasattr_guard : bool }.

Definition with_cookie_file (f : FileState) (w : World) : World :=
  mkWorld f (cookies w) (clock w) (server w) (disk w) (environ w) (trace w)
          (write_fault w) (unlink_fault w) (hasattr_guard w).

Definition with_cookies (J : Jar) (w : World) : World :=
  mkWorld (cookie_file w) J (clock w) (server w) (disk w) (environ w) (trace w)
          (write_fault w) (unlink_fault w) (hasattr_guard w).

Definition with_server (s : list Reply) (w : World) : World :=
  mkWorld (cookie_file w) (cookies w) (clock w) s (disk w) (environ w) (trace w)
          (write_fault w) (unlink_fault w) (hasattr_guard w).

Definition log (e : Event) (w : World) : World :=
  mkWorld (cookie_file w) (cookies w) (clock w) (server w) (disk w) (environ w)
          (trace w ++ [e]) (write_fault w) (unlink_fault w) (hasattr_guard w).

(** ** State and exception monad *)

Definition M (A : Type) : Type := World -> result A * World.

Definition ret {A} (a : A) : M A := fun w => (Ok a, w).

Definition raise {A} (e : exn) : M A := fun w => (Raise e, w).

Definition bind {A B} (m : M A) (k : A -> M B) : M B :=
  fun w =>
    match m w with
    | (Ok a, w') => k a w'
    | (Raise e, w') => (Raise e, w')
    end.

(** A pure Python operation that may raise. *)
Definition lift {A} (r : result A) : M A := fun w => (r, w).

(** [try: m  except C: h], where [catches] tells whether an exception is an
    instance of [C]. *)
Definition try_except {A} (m : M A) (catches : exn -> bool) (h : M A) : M A :=
  fun w =>
    match m w with
    | (Raise e, w') => if catches e then h w' else (Raise e, w')
    | r => r
    end.

Definition gets {A} (f : World -> A) : M A := fun w => (Ok (f w), w).

Definition modify (f : World -> World) : M unit := fun w => (Ok tt, f w).

Definition emit (e : Event) : M unit := modify (log e).

Declare Scope py_scope.
Delimit Scope py_scope with py.
Notation "x <- m ;; k" := (bind m (fun x => k))
  (at level 61, m at next level, right associativity) : py_scope.
Notation "m ;; k" := (bind m (fun _ => k))
  (at level 61, right associativity) : py_scope.
Local Open Scope py_scope.

(** ** The [requests] session *)

(** One request through the session: it is recorded, the network answers
    with the next scripted reply (a network without replies fails), and the
    cookies of the response are merged into the jar. *)
Definition send (rq : Request) : M Response :=
  emit (EvHttp rq) ;;
  s <- gets server ;;
  match s with
  | Answer r :: rest =>
      modify (with_server rest) ;;
      J <- gets cookies ;;
      modify (with_cookies (extract_cookies (set_cookies r) J)) ;;
      ret r
  | NetworkFailure :: rest =>
      modify (with_server rest) ;;
      raise ConnectionError
  | [] => raise ConnectionError
  end.

(** [resp.raise_for_status()] *)
Definition raise_for_status (r : Response) : M unit :=
  if (400 <=? status_code r) && (status_code r <? 600)
  then raise HTTPError
  else ret tt.

(** [resp.json()] *)
Definition resp_json (r : Response) : M json :=
  match content r with
  | Some j => ret j
  | None => raise JSONDecodeError
  end.

(** ** [class NaukriAPIClient] (main.py) *)

Record Client : Type := mkClient
  { username : string;
    password : string }.

(** [a or b] on two optional strings, and the truth value of one. *)
Definition py_or (a b : option string) : option string :=
  match a with
  | Some s => if String.eqb s "" then b else a
  | None => b
  end.

Definition provided (a : option string) : bool :=
  match a with
  | Some s => negb (String.eqb s "")
  | None => false
  end.

Definition str_of (a : option string) : string :=
  match a with
  | Some s => s
  | None => ""
  end.

Definition default_headers : list (string * string) :=
  [("appid", "103"); ("systemid", "jobseeker"); ("Content-Type", "application/json")].

Fixpoint set_each (cs : list json) : M unit :=
  match cs with
  | [] => ret tt
  | c :: rest =>
      has_name <- lift (py_in "name" c) ;;
      has_both <- (if has_name : bool then lift (py_in "value" c) else ret false) ;;
      (if has_both : bool
       then
         n <- lift (getitem c "name") ;;
         v <- lift (getitem c "value") ;;
         d <- lift (get c "domain" (JStr ".naukri.com")) ;;
         J <- gets cookies ;;
         guard <- gets hasattr_guard ;;
         J' <- lift (CookieJar.set guard n v d J) ;;
         modify (with_cookies J')
       else ret tt) ;;
      set_each rest
  end.

Definition _set_cookies_from_json (cookie_list : json) : M unit :=
  cs <- lift (iter cookie_list) ;;
  set_each cs.

(** One entry of the cookie file.  The expiry is computed from the clock
    for every cookie. *)
Definition cookie_entry (now : Z) (c : Cookie) : json :=
  JObj [("name", name c); ("value", value c); ("domain", JStr (domain c));
        ("expiry", JInt (now + 3600))].

(** The list is built first; then the file is opened for writing, which
    raises when the file system refuses.  The file is written with
    [json.dump] and read back with [json.load]; the document that is read
    is the document that was written. *)
Definition _save_cookies : M unit :=
  J <- gets cookies ;;
  now <- gets clock ;;
  fault <- gets write_fault ;;
  match fault with
  | Some e => raise e
  | None =>
      modify (with_cookie_file (FJson (JArr (map (cookie_entry now) J)))) ;;
      emit (EvFileWrite (JArr (map (cookie_entry now) J)))
  end.

Definition _load_cookies : M unit :=
  f <- gets cookie_file ;;
  match f with
  | FAbsent => ret tt
  | FUnreadable => ret tt
  | FJson doc => try_except (_set_cookies_from_json doc) is_Exception (ret tt)
  end.

(** The loop of [_is_cookie_expired].  The message printed for an expired
    cookie evaluates [c['name']]. *)
Fixpoint scan_expiry (now : Z) (cs : list json) : result bool :=
  match cs with
  | [] => Ok false
  | c :: rest =>
      rbind (get c "expiry" (JInt 0)) (fun exp =>
        if truthy exp
        then rbind (lt_int exp now) (fun past =>
               if past : bool
               then rbind (getitem c "name") (fun _ => Ok true)
               else scan_expiry now rest)
        else scan_expiry now rest)
  end.

(** The verdict of [_is_cookie_expired] on a state of the cookie file at
    time [now]; an exception in the [try] block gives [True]. *)
Definition expired_at (now : Z) (f : FileState) : bool :=
  match f with
  | FAbsent => true
  | FUnreadable => true
  | FJson doc =>
      match rbind (iter doc) (scan_expiry now) with
      | Ok b => b
      | Raise _ => true
      end
  end.

Definition _is_cookie_expired : M bool :=
  emit EvExpiryCheck ;;
  f <- gets cookie_file ;;
  now <- gets clock ;;
  ret (expired_at now f).

Definition login_request (self : Client) : Request :=
  mkRequest POST LoginUrl default_headers
    (JsonBody (JObj [("username", JStr (username self));
                     ("password", JStr (password self))])).

Definition login (self : Client) : M unit :=
  resp <- send (login_request self) ;;
  raise_for_status resp ;;
  data <- resp_json resp ;;
  has_cookies <- lift (py_in "cookies" data) ;;
  if negb has_cookies
  then raise ValueError
  else
    cookie_list <- lift (getitem data "cookies") ;;
    _set_cookies_from_json cookie_list ;;
    _save_cookies.

(** The cookies of the session are cleared first; [unlink], called when
    the file exists, raises when the file system refuses. *)
Definition logout : M unit :=
  modify (with_cookies []) ;;
  f <- gets cookie_file ;;
  match f with
  | FAbsent => ret tt
  | _ =>
      fault <- gets unlink_fault ;;
      match fault with
      | Some e => raise e
      | None => modify (with_cookie_file FAbsent) ;; emit EvFileDelete
      end
  end.

(** [requests.Session()]: a new session starts with an empty jar. *)
Definition new_session : M unit := modify (with_cookies []).

(** [NaukriAPIClient(username, password)]: the credentials are resolved
    before anything else is done. *)
Definition __init__ (user pass : option string) : M Client :=
  env <- gets environ ;;
  let u := py_or user (env "NAUKRI_USERNAME") in
  let p := py_or pass (env "NAUKRI_PASSWORD") in
  if negb (provided u) || negb (provided p)
  then raise ValueError
  else
    new_session ;;
    _load_cookies ;;
    ret (mkClient (str_of u) (str_of p)).

Definition profile_request : Request :=
  mkRequest GET ProfileUrl default_headers NoBody.

Definition get_profile (self : Client) : M json :=
  expired <- _is_cookie_expired ;;
  (if expired : bool then login self else ret tt) ;;
  try_except
    (resp <- send profile_request ;;
     resp <- (if status_code resp =? 401
              then login self ;; send profile_request
              else ret resp) ;;
     if status_code resp =? 200
     then resp_json resp
     else ret JNull)
    is_Exception
    (ret JNull).

Definition resume_headers : list (string * string) :=
  [("appid", "135"); ("systemid", "135"); ("Content-Type", "application/json");
   ("x-http-method-override", "PUT"); ("x-requested-with", "XMLHttpRequest")].

Definition update_request (file_key profile_id : json) : Request :=
  mkRequest POST (AdvResumeUrl profile_id) resume_headers
    (JsonBody (JObj [("textCV", JObj [("formKey", JStr "F51f8e7e54e205");
                                      ("fileKey", file_key);
                                      ("textCvContent", JNull)])])).

Definition update_resume (self : Client) (file_key profile_id : json) : M json :=
  try_except
    (response <- send (update_request file_key profile_id) ;;
     raise_for_status response ;;
     if status_code response =? 200
     then ret (JBool true)
     else ret (JBool false))
    is_RequestException
    (ret (JBool false)).

Definition upload_headers : list (string * string) :=
  [("appid", "105"); ("systemid", "fileupload")].

Definition upload_request (file_path : string) : Request :=
  mkRequest POST FileUploadUrl upload_headers (UploadForm "F51f8e7e54e205" file_path).

(** [next(iter(resp_json.keys()))] *)
Definition first_key (v : json) : result json :=
  match v with
  | JObj ((k, _) :: _) => Ok (JStr k)
  | JObj [] => Raise StopIteration
  | _ => Raise AttributeError
  end.

(** [profile_data['profile'][0]['profileId']] *)
Definition profile_id_of (profile_data : json) : result json :=
  rbind (getitem profile_data "profile") (fun profiles =>
    rbind (getitem0 profiles) (fun first =>
      getitem first "profileId")).

Definition upload_resume (self : Client) (file_path : string) : M json :=
  try_except
    (o <- gets (fun w => disk w file_path) ;;
     match o with
     | Missing => raise FileNotFoundError
     | Denied => raise PermissionError
     | Opened =>
         response <- send (upload_request file_path) ;;
         raise_for_status response ;;
         resp_json <- resp_json response ;;
         if negb (isdict resp_json) || negb (truthy resp_json)
         then ret JNull
         else
           file_key <- lift (first_key resp_json) ;;
           profile_data <- get_profile self ;;
           profile_id <- lift (profile_id_of profile_data) ;;
           if negb (truthy profile_id)
           then ret (JBool false)
           else
             profile_id <- lift (profile_id_of profile_data) ;;
             update_resume self file_key profile_id
     end)
    (fun e => is_FileNotFoundError e || is_RequestException e)
    (ret JNull).

Definition headline_headers : list (string * string) :=
  [("appid", "135"); ("systemid", "Naukri"); ("Content-Type", "application/json");
   ("x-http-method-override", "PUT"); ("x-requested-with", "XMLHttpRequest")].

Definition headline_request (headline profile_id : json) : Request :=
  mkRequest POST FullProfilesUrl headline_headers
    (JsonBody (JObj [("profile", JObj [("resumeHeadline", headline)]);
                     ("profileId", profile_id)])).

Definition refresh_resume_headline (self : Client) : M json :=
  profile_data <- get_profile self ;;
  profile_list <- lift (get profile_data "profile" (JArr [])) ;;
  if negb (truthy profile_list)
  then ret (JBool false)
  else
    profile <- lift (getitem0 profile_list) ;;
    profile_id <- lift (get profile "profileId" JNull) ;;
    current_headline <- lift (get profile "resumeHeadline" JNull) ;;
    if negb (truthy profile_id) || negb (truthy current_headline)
    then ret (JBool false)
    else
      stripped <- lift (rstrip current_headline) ;;
      let headline_with_dot := JStr (stripped ++ ".") in
      try_except
        (resp_add <- send (headline_request headline_with_dot profile_id) ;;
         raise_for_status resp_add ;;
         if negb (status_code resp_add =? 200)
         then ret (JBool false)
         else
           resp_revert <- send (headline_request current_headline profile_id) ;;
           raise_for_status resp_revert ;;
           if status_code resp_revert =? 200
           then ret (JBool true)
           else ret (JBool false))
        is_RequestException
        (ret (JBool false)).

(** ** Command line entry point (naukri_client.py) *)

Record Args : Type := mkArgs
  { arg_user : option string;
    arg_password : option string;
    arg_upload : option string;
    arg_refresh : bool }.

Definition jar_empty (J : Jar) : bool :=
  match J with
  | [] => true
  | _ => false
  end.

Definition main (args : Args) : M unit :=
  client <- __init__ (arg_user args) (arg_password args) ;;
  expired <- _is_cookie_expired ;;
  J <- gets cookies ;;
  (if expired || jar_empty J then login client else ret tt) ;;
  if provided (arg_upload args)
  then upload_resume client (str_of (arg_upload args)) ;; ret tt
  else
    if arg_refresh args
    then refresh_resume_headline client ;; ret tt
    else ret tt.

(** The block that runs when main.py itself is the script: a client built
    without arguments, logged in when the cookie file is expired or the
    session has no cookies. *)
Definition main_py : M unit :=
  client <- __init__ None None ;;
  expired <- _is_cookie_expired ;;
  J <- gets cookies ;;
  if expired || jar_empty J then login client else ret tt.

(** * Specification vocabulary and example worlds *)

(** ** Cookie expiry ([_is_cookie_expired]) *)

(** A cookie object whose recorded expiry is a non-zero integer before
    [now]. *)
Definition past_expiry (now : Z) (c : json) : Prop :=
  exists fields e,
    c = JObj fields /\ lookup "expiry" fields = Some (JInt e) /\ e <> 0 /\ e < now.

(** A cookie object that the scan passes over: its expiry is not recorded,
    is [null], is zero, or is an integer not before [now]. *)
Definition unexpired (now : Z) (c : json) : bool :=
  match c with
  | JObj fields =>
      match lookup "expiry" fields with
      | None => true
      | Some JNull => true
      | Some (JInt e) => (e =? 0) || (now <=? e)
      | Some _ => false
      end
  | _ => false
  end.

(** The cases in which the verdict of the expiry check is determined by
    the state of the cookie file. *)
Inductive Verdict (now : Z) : FileState -> bool -> Prop :=
| Verdict_absent : Verdict now FAbsent true
| Verdict_unreadable : Verdict now FUnreadable true
| Verdict_past : forall cs c,
    In c cs -> past_expiry now c -> Verdict now (FJson (JArr cs)) true
| Verdict_valid : forall cs,
    forallb (unexpired now) cs = true -> Verdict now (FJson (JArr cs)) false.

(** A world with the given cookie file, jar, clock and scripted replies,
    no resume file on disk, an empty environment, an empty trace, a file
    system that lets the cookie file be written and removed, and a release
    of [requests] with the guard. *)
Definition world_of (f : FileState) (J : Jar) (now : Z) (replies : list Reply) : World :=
  mkWorld f J now replies (fun _ => Missing) (fun _ => None) [] None None true.

(** ** Credentials ([__init__]) *)

(** An environment that provides both credentials. *)
Definition dotenv (k : string) : option string :=
  if String.eqb k "NAUKRI_USERNAME" then Some "env-user"
  else if String.eqb k "NAUKRI_PASSWORD" then Some "env-secret"
  else None.

Definition world_with_env : World :=
  mkWorld FAbsent [] 100 [] (fun _ => Missing) dotenv [] None None true.

(** ** Login *)

(** The body of a login response has a [cookies] field when it is a JSON
    object with that key. *)
Definition has_cookies_field (data : json) : bool :=
  match data with
  | JObj fields =>
      match lookup "cookies" fields with
      | Some _ => true
      | None => false
      end
  | _ => false
  end.

Definition http_error (status : Z) : bool :=
  (400 <=? status) && (status <? 600).

(** ** The cookie store ([_save_cookies], [_load_cookies]) *)

(** A cookie that the server sets with an expiry of its own, and a login
    response that carries it in a [Set-Cookie] header. *)
Definition server_cookie : Cookie :=
  mkCookie (JStr "nauk_sid") (JStr "s3ss10n") ".naukri.com" "/" (Some 2000000000).

Definition login_reply_with_expiry : Reply :=
  Answer (mkResponse 200 (Some (JObj [("cookies", JArr [])])) [server_cookie]).

(** Saving the jar, starting a new session and loading the file, as a
    later run of the program does. *)
Definition save_then_load : M unit :=
  _save_cookies ;;
  new_session ;;
  _load_cookies.


(** The four components of a cookie the specification compares. *)
Definition cookie_tuple (c : Cookie) : json * json * string * option Z :=
  (name c, value c, domain c, expires c).









(** The value made of a double quote, a backslash and a double quote. *)
Definition escaped_quote : string :=
  String dquote (String backslash (String dquote EmptyString)).

(** ** Reasoning about runs: what an operation adds to the trace *)

(** The requests among a sequence of events. *)
Fixpoint requests (tr : list Event) : list Request :=
  match tr with
  | [] => []
  | EvHttp rq :: rest => rq :: requests rest
  | _ :: rest => requests rest
  end.

(** The events that a run from [w] to [w'] has added. *)
Definition new_events (w w' : World) : list Event :=
  skipn (List.length (trace w)) (trace w').

(** The world after [send rq] was answered by [r]. *)
Definition answered (rq : Request) (r : Response) (rest : list Reply) (w : World) : World :=
  with_cookies (extract_cookies (set_cookies r) (cookies w))
    (with_server rest (log (EvHttp rq) w)).

(** [Extends m]: a run of [m] only appends to the trace.
    [Offline m]: moreover it sends no request and consumes no reply. *)
Definition Extends {A} (m : M A) : Prop :=
  forall w, exists d, trace (snd (m w)) = trace w ++ d.

Definition Offline {A} (m : M A) : Prop :=
  forall w,
    server (snd (m w)) = server w
    /\ exists d, trace (snd (m w)) = trace w ++ d /\ requests d = [].

(** ** HTTP 401 *)

(** [ready self w w0]: a call of [get_profile] in [w] enters its [try]
    block in [w0], that is after the expiry check and, when the check
    reports an expired session, after a login that returned. *)
Definition ready (self : Client) (w w0 : World) : Prop :=
  if expired_at (clock w) (cookie_file w)
  then login self (log EvExpiryCheck w) = (Ok tt, w0)
  else w0 = log EvExpiryCheck w.

(** Replies and a client used in the examples: a 401 and a login that
    delivers one cookie. *)
Definition unauthorized : Reply := Answer (mkResponse 401 None []).

Definition good_login : Reply :=
  Answer (mkResponse 200
            (Some (JObj [("cookies",
                          JArr [JObj [("name", JStr "nauk_at"); ("value", JStr "tok")]])]))
            []).

Definition alice : Client := mkClient "alice" "pw".

(** ** The expiry check before requests *)

(** [guarded false tr]: no request occurs in [tr] before the first expiry
    check. *)
Fixpoint guarded (checked : bool) (tr : list Event) : bool :=
  match tr with
  | [] => true
  | EvExpiryCheck :: rest => guarded true rest
  | EvHttp _ :: rest => checked && guarded checked rest
  | _ :: rest => guarded checked rest
  end.

(** [ChecksFirst m]: the first thing a run of [m] does is the expiry
    check. *)
Definition ChecksFirst {A} (m : M A) : Prop :=
  forall w, exists d, trace (snd (m w)) = trace w ++ EvExpiryCheck :: d.

(** A session that is in order, a resume on disk, and a service that
    accepts the upload, serves the profile and accepts the update. *)
Definition profile_reply : Reply :=
  Answer (mkResponse 200
            (Some (JObj [("profile",
                          JArr [JObj [("profileId", JStr "12345");
                                      ("resumeHeadline", JStr "Senior Engineer")]])]))
            []).

Definition upload_reply : Reply :=
  Answer (mkResponse 200
            (Some (JObj [("UR54EQmIiGvBMt",
                          JObj [("url", JStr "//filevalidation.naukri.com/file/download")])]))
            []).

Definition ok_reply : Reply := Answer (mkResponse 200 None []).

Definition world_with_resume (replies : list Reply) : World :=
  mkWorld (FJson (JArr [])) [] 1000 replies (fun _ => Opened) (fun _ => None) []
          None None true.

(** ** Headline refresh *)

(** The last character of [s] is a period. *)
Fixpoint ends_with_dot (s : string) : bool :=
  match s with
  | EmptyString => false
  | String a EmptyString => Ascii.eqb a "."%char
  | String _ rest => ends_with_dot rest
  end.

(** The next reply is a response with status 200. *)
Definition succeeds (replies : list Reply) : bool :=
  match replies with
  | Answer r :: _ => status_code r =? 200
  | _ => false
  end.

Definition profile_reply_with_period : Reply :=
  Answer (mkResponse 200
            (Some (JObj [("profile",
                          JArr [JObj [("profileId", JStr "12345");
                                      ("resumeHeadline", JStr "Senior Engineer.")]])]))
            []).

(** ** Exceptions at the boundary of the operations *)

Definition server_error : Reply := Answer (mkResponse 500 None []).

Definition login_without_cookies : Reply :=
  Answer (mkResponse 200 (Some (JObj [("message", JStr "welcome")])) []).

(** ** Vocabulary of the further properties *)

(** [Keeps f m]: a run of [m] leaves the component [f] of the world as it
    was. *)
Definition Keeps {X A} (f : World -> X) (m : M A) : Prop :=
  forall w, f (snd (m w)) = f w.

(** An entry of a cookie list that [_set_cookies_from_json] passes over: an
    object without the key [name] or without the key [value]. *)
Definition incomplete (c : json) : bool :=
  match c with
  | JObj fields =>
      match lookup "name" fields, lookup "value" fields with
      | Some _, Some _ => false
      | _, _ => true
      end
  | _ => false
  end.


(** What [get_profile] returns for the reply to its single request when
    that reply is not a 401. *)
Definition fetch_outcome (replies : list Reply) : json :=
  match replies with
  | Answer r :: _ =>
      if status_code r =? 200
      then match content r with
           | Some j => j
           | None => JNull
           end
      else JNull
  | _ => JNull
  end.

(** The next reply is a 401. *)
Definition unauthorized_next (replies : list Reply) : bool :=
  match replies with
  | Answer r :: _ => status_code r =? 401
  | _ => false
  end.

(** The sequences of requests a call of [get_profile] can send. *)
Definition fetch_sequences (self : Client) : list (list Request) :=
  [[profile_request];
   [profile_request; login_request self];
   [profile_request; login_request self; profile_request]].

Definition get_profile_sequences (self : Client) : list (list Request) :=
  fetch_sequences self
  ++ [login_request self] :: map (cons (login_request self)) (fetch_sequences self).

(** A profile document on which the headline refresh gives up before it
    submits anything: the profile list is missing or empty (or any other
    false value), or its first profile is an object whose profile id or
    headline is missing or empty. *)
Definition declines (pd : json) : bool :=
  match pd with
  | JObj top =>
      let profile_list :=
        match lookup "profile" top with Some pl => pl | None => JArr [] end in
      if truthy profile_list
      then match profile_list with
           | JArr (JObj fields :: _) =>
               negb (truthy (match lookup "profileId" fields with
                             | Some v => v
                             | None => JNull
                             end))
               || negb (truthy (match lookup "resumeHeadline" fields with
                                | Some v => v
                                | None => JNull
                                end))
           | _ => false
           end
      else true
  | _ => false
  end.

(** [WritesOrLeaves m]: a run of [m] that returns has written the cookies
    of the session to the cookie file, and a run that raises has left the
    file as it was; the clock is not touched. *)
Definition WritesOrLeaves (m : M unit) : Prop :=
  forall w,
    match m w with
    | (Ok _, w') =>
        cookie_file w' = FJson (JArr (map (cookie_entry (clock w)) (cookies w')))
        /\ clock w' = clock w
    | (Raise _, w') => cookie_file w' = cookie_file w /\ clock w' = clock w
    end.

(** The [try] block of [get_profile]. *)
Definition fetch_block (self : Client) : M json :=
  try_except
    (resp <- send profile_request ;;
     resp <- (if status_code resp =? 401
              then login self ;; send profile_request
              else ret resp) ;;
     if status_code resp =? 200
     then resp_json resp
     else ret JNull)
    is_Exception
    (ret JNull).

(** A cookie file that parses but is not a list of cookie objects from its
    first element on: a scalar, a non-empty object or string, or a list
    whose first element is not an object. *)
Definition malformed (doc : json) : bool :=
  match doc with
  | JNull | JBool _ | JInt _ => true
  | JStr s => negb (String.eqb s "")
  | JObj fields => match fields with [] => false | _ => true end
  | JArr [] => false
  | JArr (c :: _) => negb (isdict c)
  end.

(** * Properties *)

(** ** Python primitives *)

Example rstrip_dot_ex1 : rstrip_dot "Senior Engineer" = "Senior Engineer".
Proof. reflexivity. Qed.

Example rstrip_dot_ex2 : rstrip_dot "a.b..." = "a.b".
Proof. reflexivity. Qed.

Example contains_ex : contains "name" "my name is" = true /\ contains "name" "nam" = false.
Proof. split; reflexivity. Qed.

(** ** Cookie expiry ([_is_cookie_expired]) *)

Lemma scan_expiry_past (now : Z) (cs : list json) (c : json) :
  In c cs -> past_expiry now c -> scan_expiry now cs <> Ok false.
Proof.
  intros Hin (fields & e & -> & Hexp & Hnz & Hlt).
  induction cs as [| c0 rest IH]; [contradiction |].
  destruct Hin as [-> | Hin].
  - cbn [scan_expiry get rbind]. rewrite Hexp. cbn [truthy lt_int rbind].
    apply Z.eqb_neq in Hnz. rewrite Hnz. cbn [negb].
    apply Z.ltb_lt in Hlt. rewrite Hlt.
    destruct (getitem (JObj fields) "name"); cbn; discriminate.
  - specialize (IH Hin). cbn [scan_expiry].
    destruct (get c0 "expiry" (JInt 0)) as [exp |]; cbn [rbind]; [| discriminate].
    destruct (truthy exp); [| exact IH].
    destruct (lt_int exp now) as [[|] |]; cbn [rbind]; [| exact IH | discriminate].
    destruct (getitem c0 "name"); cbn; discriminate.
Qed.

Lemma scan_expiry_valid (now : Z) (cs : list json) :
  forallb (unexpired now) cs = true -> scan_expiry now cs = Ok false.
Proof.
  induction cs as [| c rest IH]; [reflexivity |].
  cbn [forallb]. intros H. apply andb_prop in H. destruct H as [Hc Hrest].
  specialize (IH Hrest). cbn [scan_expiry].
  destruct c as [| | | | | fields]; try discriminate.
  cbn [unexpired] in Hc. cbn [get].
  destruct (lookup "expiry" fields) as [[| | e | | |] |]; try discriminate;
    cbn [rbind truthy]; try exact IH.
  destruct (e =? 0) eqn:E0; cbn [negb]; [exact IH |].
  cbn [orb] in Hc. cbn [lt_int rbind].
  replace (e <? now) with false by (symmetry; apply Z.ltb_ge; apply Z.leb_le; exact Hc).
  exact IH.
Qed.

Lemma expired_at_verdict (now : Z) (f : FileState) (b : bool) :
  Verdict now f b -> expired_at now f = b.
Proof.
  intros [| | cs c Hin Hpast | cs Hall]; try reflexivity.
  - cbn [expired_at iter rbind].
    pose proof (scan_expiry_past now cs c Hin Hpast) as Hne.
    destruct (scan_expiry now cs) as [[|] |]; congruence.
  - cbn [expired_at iter rbind]. now rewrite scan_expiry_valid.
Qed.

(** C1 (as amended).  [_is_cookie_expired] never raises, and answers [True]
    when the cookie file is absent, when it cannot be read or parsed, and
    when it is a list in which some cookie records a non-zero expiry before
    the current time; it answers [False] when the file is a list (possibly
    empty) of cookie objects whose expiry is missing, null, zero or not
    before the current time. *)
Theorem is_cookie_expired_verdict (w : World) (b : bool) :
  Verdict (clock w) (cookie_file w) b ->
  fst (_is_cookie_expired w) = Ok b.
Proof.
  intros H. cbn. f_equal. now apply expired_at_verdict.
Qed.

Lemma is_cookie_expired_verdict_witness :
  fst (_is_cookie_expired
         (world_of (FJson (JArr [JObj [("name", JStr "nauk_at"); ("expiry", JInt 50)]]))
                   [] 100 []))
  = Ok true.
Proof.
  apply (is_cookie_expired_verdict
           (world_of (FJson (JArr [JObj [("name", JStr "nauk_at"); ("expiry", JInt 50)]]))
                     [] 100 []) true).
  cbn. eapply Verdict_past; [left; reflexivity |].
  exists [("name", JStr "nauk_at"); ("expiry", JInt 50)], 50.
  repeat split; lia.
Defined.

(** C1 (as stated) fails on a cookie file that holds zero cookies: the
    expiry check reports it as not expired. *)
Lemma is_cookie_expired_zero_cookies :
  cookie_file (world_of (FJson (JArr [])) [] 100 []) = FJson (JArr [])
  /\ fst (_is_cookie_expired (world_of (FJson (JArr [])) [] 100 [])) = Ok false.
Proof. split; reflexivity. Qed.

(** ** Credentials ([__init__]) *)

Lemma load_cookies_returns (w : World) :
  exists w', _load_cookies w = (Ok tt, w').
Proof.
  unfold _load_cookies, bind, gets.
  destruct (cookie_file w) as [| | doc]; try (eexists; reflexivity).
  unfold try_except.
  destruct (_set_cookies_from_json doc w) as [[[] | e] w'];
    eexists; reflexivity.
Qed.

Lemma py_or_provided (a b : option string) :
  provided a = true -> py_or a b = a.
Proof.
  destruct a as [s |]; cbn; [| discriminate].
  now destruct (String.eqb s "").
Qed.

Lemma py_or_not_provided (a b : option string) :
  provided a = false -> py_or a b = b.
Proof.
  destruct a as [s |]; cbn; [| reflexivity].
  now destruct (String.eqb s "").
Qed.

(** C10.  When neither an argument nor the environment provides the
    username and the password, the constructor raises before it touches
    the world: no request is sent, no file is read and the trace is
    unchanged.  A non-empty explicit username (password) is the one the
    client holds, whatever the environment says, provided the other
    credential resolves too. *)
Theorem init_credentials (user pass : option string) (w : World) :
  (provided user = false -> provided pass = false ->
   provided (environ w "NAUKRI_USERNAME") = false ->
   provided (environ w "NAUKRI_PASSWORD") = false ->
   __init__ user pass w = (Raise ValueError, w))
  /\
  (provided user = true ->
   provided (py_or pass (environ w "NAUKRI_PASSWORD")) = true ->
   exists c, fst (__init__ user pass w) = Ok c /\ user = Some (username c))
  /\
  (provided pass = true ->
   provided (py_or user (environ w "NAUKRI_USERNAME")) = true ->
   exists c, fst (__init__ user pass w) = Ok c /\ pass = Some (password c)).
Proof.
  split; [| split].
  - intros Hu Hp Heu Hep. unfold __init__, bind, gets.
    rewrite (py_or_not_provided user _ Hu), Heu. reflexivity.
  - intros Hu Hp. unfold __init__, bind, gets.
    rewrite (py_or_provided user _ Hu), Hu, Hp. cbn [negb orb]. unfold new_session, modify.
    destruct (load_cookies_returns (with_cookies [] w)) as [w' ->]. cbn.
    eexists; split; [reflexivity |].
    destruct user; [reflexivity | discriminate].
  - intros Hp Hu. unfold __init__, bind, gets.
    rewrite (py_or_provided pass _ Hp), Hu, Hp. cbn [negb orb]. unfold new_session, modify.
    destruct (load_cookies_returns (with_cookies [] w)) as [w' ->]. cbn.
    eexists; split; [reflexivity |].
    destruct pass; [reflexivity | discriminate].
Qed.

Lemma init_credentials_witness :
  __init__ None None (world_of FAbsent [] 100 []) = (Raise ValueError, world_of FAbsent [] 100 [])
  /\ (exists c, fst (__init__ (Some "alice") None world_with_env) = Ok c
                /\ Some "alice" = Some (username c)).
Proof.
  split.
  - apply (proj1 (init_credentials None None (world_of FAbsent [] 100 []))); reflexivity.
  - apply (proj1 (proj2 (init_credentials (Some "alice") None world_with_env))); reflexivity.
Defined.

(** ** Login *)

(** C4.  When the body of the login response has no [cookies] field,
    [login] raises, the cookie file is left as it was, and the only action
    it has performed is the login request (in particular nothing was
    written).  The exception is [ValueError] when the body is a JSON object
    and the status is not an error status. *)
Theorem login_without_cookies_field
    (self : Client) (w : World) (r : Response) (rest : list Reply) (data : json) :
  server w = Answer r :: rest ->
  content r = Some data ->
  has_cookies_field data = false ->
  exists e w',
    login self w = (Raise e, w')
    /\ cookie_file w' = cookie_file w
    /\ trace w' = trace w ++ [EvHttp (login_request self)]
    /\ (isdict data = true -> http_error (status_code r) = false -> e = ValueError).
Proof.
  intros Hs Hc Hno.
  unfold login, bind, send, emit, modify, gets. cbn. rewrite Hs. cbn.
  unfold raise_for_status, http_error.
  destruct ((400 <=? status_code r) && (status_code r <? 600)) eqn:Est; cbn.
  - do 2 eexists. repeat split. intros _ H; discriminate.
  - unfold resp_json. rewrite Hc. cbn.
    destruct data as [| b | n | s | items | fields]; cbn;
      try (do 2 eexists; repeat split; intros H; discriminate).
    + destruct (contains "cookies" s); cbn;
        do 2 eexists; repeat split; intros H; discriminate.
    + destruct (existsb (is_str "cookies") items); cbn;
        do 2 eexists; repeat split; intros H; discriminate.
    + cbn in Hno. destruct (lookup "cookies" fields); [discriminate |]. cbn.
      do 2 eexists. repeat split.
Qed.

Lemma login_without_cookies_field_witness :
  exists e w',
    login (mkClient "alice" "pw")
          (world_of FAbsent [] 100
             [Answer (mkResponse 200 (Some (JObj [("message", JStr "welcome")])) [])])
    = (Raise e, w')
    /\ cookie_file w' = FAbsent
    /\ trace w' = [] ++ [EvHttp (login_request (mkClient "alice" "pw"))]
    /\ (isdict (JObj [("message", JStr "welcome")]) = true ->
        http_error 200 = false -> e = ValueError).
Proof.
  apply (login_without_cookies_field (mkClient "alice" "pw")
           (world_of FAbsent [] 100
              [Answer (mkResponse 200 (Some (JObj [("message", JStr "welcome")])) [])])
           (mkResponse 200 (Some (JObj [("message", JStr "welcome")])) []) []
           (JObj [("message", JStr "welcome")])); reflexivity.
Defined.

(** ** The cookie store ([_save_cookies], [_load_cookies]) *)

(** C8 (the code departs from it).  After a login whose response sets a
    cookie with an expiry of its own, the session holds that cookie with
    the expiry of the server, and the cookie file records the current time
    plus 3600 for it instead. *)
Theorem save_cookies_overwrites_server_expiry :
  let w' := snd (login (mkClient "alice" "pw")
                       (world_of FAbsent [] 1000 [login_reply_with_expiry])) in
  cookies w' = [server_cookie]
  /\ expires server_cookie = Some 2000000000
  /\ cookie_file w'
     = FJson (JArr [JObj [("name", JStr "nauk_sid"); ("value", JStr "s3ss10n");
                          ("domain", JStr ".naukri.com"); ("expiry", JInt 4600)]]).
Proof. cbv zeta. repeat split. Qed.


Section CookieStore.

Variable now : Z.
Variable guard : bool.










End CookieStore.




(** What the hypotheses of the round trip exclude does not come back as it
    was saved: two cookies with the same name and domain under different
    paths come back as one; a value wrapped in double quotes around an
    escaped quote comes back without the escaped quote; a cookie whose
    value is [None] does not come back. *)
Lemma save_then_load_outside_hypotheses :
  map cookie_tuple
    (cookies (snd (save_then_load
                     (world_of FAbsent
                        [mkCookie (JStr "sid") (JStr "one") ".naukri.com" "/" None;
                         mkCookie (JStr "sid") (JStr "two") ".naukri.com" "/app" None]
                        1000 []))))
  = [(JStr "sid", JStr "two", ".naukri.com", None)]
  /\ map cookie_tuple
       (cookies (snd (save_then_load
                        (world_of FAbsent
                           [mkCookie (JStr "sid") (JStr escaped_quote) ".naukri.com" "/" None]
                           1000 []))))
     = [(JStr "sid", JStr (String dquote EmptyString), ".naukri.com", None)]
  /\ cookies (snd (save_then_load
                     (world_of FAbsent
                        [mkCookie (JStr "sid") JNull ".naukri.com" "/" None]
                        1000 [])))
     = [].
Proof. repeat split. Qed.

(** ** Reasoning about runs: what an operation adds to the trace *)

Section Runs.

Context {A B : Type}.

Lemma requests_app (l1 l2 : list Event) :
  requests (l1 ++ l2) = requests l1 ++ requests l2.
Proof.
  induction l1 as [| e l1 IH]; [reflexivity |].
  destruct e; cbn; now rewrite IH.
Qed.

Lemma new_events_app (w w' : World) (d : list Event) :
  trace w' = trace w ++ d -> new_events w w' = d.
Proof.
  unfold new_events. intros ->.
  induction (trace w) as [| e l IH]; [reflexivity | exact IH].
Qed.

Lemma Offline_Extends (m : M A) : Offline m -> Extends m.
Proof.
  intros H w. destruct (H w) as (_ & d & Hd & _). now exists d.
Qed.

Lemma Extends_ret (a : A) : Extends (ret a).
Proof. intros w. exists []. cbn. now rewrite app_nil_r. Qed.

Lemma Extends_raise (e : exn) : Extends (@raise A e).
Proof. intros w. exists []. cbn. now rewrite app_nil_r. Qed.

Lemma Extends_lift (r : result A) : Extends (lift r).
Proof. intros w. exists []. cbn. now rewrite app_nil_r. Qed.

Lemma Extends_gets (f : World -> A) : Extends (gets f).
Proof. intros w. exists []. cbn. now rewrite app_nil_r. Qed.

Lemma Extends_bind (m : M A) (k : A -> M B) :
  Extends m -> (forall a, Extends (k a)) -> Extends (bind m k).
Proof.
  intros Hm Hk w. unfold bind.
  destruct (Hm w) as [d Hd].
  destruct (m w) as [[a | e] w1]; cbn [snd] in *.
  - destruct (Hk a w1) as [d' Hd']. exists (d ++ d').
    now rewrite Hd', Hd, app_assoc.
  - now exists d.
Qed.

Lemma Extends_try_except (m : M A) (catches : exn -> bool) (h : M A) :
  Extends m -> Extends h -> Extends (try_except m catches h).
Proof.
  intros Hm Hh w. unfold try_except.
  destruct (Hm w) as [d Hd].
  destruct (m w) as [[a | e] w1]; cbn [snd] in *.
  - now exists d.
  - destruct (catches e); cbn [snd].
    + destruct (Hh w1) as [d' Hd']. exists (d ++ d').
      now rewrite Hd', Hd, app_assoc.
    + now exists d.
Qed.

Lemma Offline_ret (a : A) : Offline (ret a).
Proof. intros w. split; [reflexivity |]. exists []. cbn. now rewrite app_nil_r. Qed.

Lemma Offline_raise (e : exn) : Offline (@raise A e).
Proof. intros w. split; [reflexivity |]. exists []. cbn. now rewrite app_nil_r. Qed.

Lemma Offline_lift (r : result A) : Offline (lift r).
Proof. intros w. split; [reflexivity |]. exists []. cbn. now rewrite app_nil_r. Qed.

Lemma Offline_gets (f : World -> A) : Offline (gets f).
Proof. intros w. split; [reflexivity |]. exists []. cbn. now rewrite app_nil_r. Qed.

Lemma Offline_bind (m : M A) (k : A -> M B) :
  Offline m -> (forall a, Offline (k a)) -> Offline (bind m k).
Proof.
  intros Hm Hk w. unfold bind.
  destruct (Hm w) as (Hs & d & Hd & Hr).
  destruct (m w) as [[a | e] w1]; cbn [snd] in *.
  - destruct (Hk a w1) as (Hs' & d' & Hd' & Hr'). split; [congruence |].
    exists (d ++ d'). split.
    + now rewrite Hd', Hd, app_assoc.
    + now rewrite requests_app, Hr, Hr'.
  - split; [exact Hs |]. now exists d.
Qed.

Lemma Offline_try_except (m : M A) (catches : exn -> bool) (h : M A) :
  Offline m -> Offline h -> Offline (try_except m catches h).
Proof.
  intros Hm Hh w. unfold try_except.
  destruct (Hm w) as (Hs & d & Hd & Hr).
  destruct (m w) as [[a | e] w1]; cbn [snd] in *.
  - split; [exact Hs |]. now exists d.
  - destruct (catches e); cbn [snd].
    + destruct (Hh w1) as (Hs' & d' & Hd' & Hr'). split; [congruence |].
      exists (d ++ d'). split.
      * now rewrite Hd', Hd, app_assoc.
      * now rewrite requests_app, Hr, Hr'.
    + split; [exact Hs |]. now exists d.
Qed.

End Runs.

Lemma Offline_with_cookies (J : Jar) : Offline (modify (with_cookies J)).
Proof. intros w. split; [reflexivity |]. exists []. cbn. now rewrite app_nil_r. Qed.

Lemma Offline_with_cookie_file (f : FileState) : Offline (modify (with_cookie_file f)).
Proof. intros w. split; [reflexivity |]. exists []. cbn. now rewrite app_nil_r. Qed.

Lemma Offline_emit_write (doc : json) : Offline (emit (EvFileWrite doc)).
Proof. intros w. split; [reflexivity |]. now exists [EvFileWrite doc]. Qed.

Lemma Offline_emit_check : Offline (emit EvExpiryCheck).
Proof. intros w. split; [reflexivity |]. now exists [EvExpiryCheck]. Qed.

Lemma Extends_send (rq : Request) : Extends (send rq).
Proof.
  intros w. exists [EvHttp rq].
  unfold send, bind, emit, modify, gets. cbn.
  destruct (server w) as [| [r |] rest]; reflexivity.
Qed.

Create HintDb runs.
#[export] Hint Resolve Offline_ret Offline_raise Offline_lift Offline_gets
  Offline_with_cookies Offline_with_cookie_file Offline_emit_write
  Offline_emit_check : runs.
#[export] Hint Resolve Extends_ret Extends_raise Extends_lift Extends_gets
  Extends_send : runs.

(** Decompose a goal [Offline m] or [Extends m] along the structure of [m]. *)
Ltac offline :=
  repeat first
    [ apply Offline_bind; [| intro]
    | apply Offline_try_except
    | solve [auto with runs]
    | match goal with
      | |- Offline (if ?b then _ else _) => destruct b
      | |- Offline (match ?x with _ => _ end) => destruct x
      end ].

Ltac extends :=
  repeat first
    [ solve [auto with runs]
    | solve [apply Offline_Extends; auto with runs]
    | apply Extends_bind; [| intro]
    | apply Extends_try_except
    | match goal with
      | |- Extends (if ?b then _ else _) => destruct b
      | |- Extends (match ?x with _ => _ end) => destruct x
      end ].

Lemma Offline_set_each (cs : list json) : Offline (set_each cs).
Proof.
  induction cs as [| c rest IH]; cbn [set_each]; [auto with runs |].
  offline.
Qed.
#[export] Hint Resolve Offline_set_each : runs.

Lemma Offline_set_cookies_from_json (cookie_list : json) :
  Offline (_set_cookies_from_json cookie_list).
Proof. unfold _set_cookies_from_json. offline. Qed.

Lemma Offline_save_cookies : Offline _save_cookies.
Proof. unfold _save_cookies. offline. Qed.

Lemma Offline_load_cookies : Offline _load_cookies.
Proof.
  unfold _load_cookies. offline.
Qed.

Lemma Offline_is_cookie_expired : Offline _is_cookie_expired.
Proof. unfold _is_cookie_expired. offline. Qed.

Lemma Offline_raise_for_status (r : Response) : Offline (raise_for_status r).
Proof. unfold raise_for_status. offline. Qed.

Lemma Offline_resp_json (r : Response) : Offline (resp_json r).
Proof. unfold resp_json. offline. Qed.

#[export] Hint Resolve Offline_set_cookies_from_json Offline_save_cookies
  Offline_load_cookies Offline_is_cookie_expired Offline_raise_for_status
  Offline_resp_json : runs.

Lemma send_answered (rq : Request) (w : World) (r : Response) (rest : list Reply) :
  server w = Answer r :: rest -> send rq w = (Ok r, answered rq r rest w).
Proof.
  intros H. unfold send, bind, emit, modify, gets. cbn. now rewrite H.
Qed.

Lemma send_run (rq : Request) (w : World) :
  trace (snd (send rq w)) = trace w ++ [EvHttp rq]
  /\ server (snd (send rq w)) = tl (server w).
Proof.
  unfold send, bind, emit, modify, gets. cbn.
  destruct (server w) as [| [r |] rest] eqn:E; cbn; rewrite ?E; split; reflexivity.
Qed.

(** A request followed by steps that stay offline: one request is added to
    the trace and one reply is consumed. *)
Lemma send_then_offline {A} (rq : Request) (k : Response -> M A) (w : World) :
  (forall r, Offline (k r)) ->
  server (snd (bind (send rq) k w)) = tl (server w)
  /\ exists d,
       trace (snd (bind (send rq) k w)) = trace w ++ EvHttp rq :: d
       /\ requests d = [].
Proof.
  intros Hk. unfold bind.
  destruct (send_run rq w) as [Ht Hs].
  destruct (send rq w) as [[r | e] w1]; cbn [snd] in *.
  - destruct (Hk r w1) as (Hs' & d & Hd & Hr). split; [congruence |].
    exists d. split; [| exact Hr].
    now rewrite Hd, Ht, <- app_assoc.
  - split; [exact Hs |]. exists []. now split.
Qed.

Lemma login_run (self : Client) (w : World) :
  server (snd (login self w)) = tl (server w)
  /\ exists d,
       trace (snd (login self w)) = trace w ++ EvHttp (login_request self) :: d
       /\ requests d = [].
Proof.
  unfold login. apply send_then_offline. intros r. offline.
Qed.

Lemma Extends_login (self : Client) : Extends (login self).
Proof.
  intros w. destruct (login_run self w) as (_ & d & Hd & _). eauto.
Qed.
#[export] Hint Resolve Extends_login : runs.

Lemma Extends_get_profile (self : Client) : Extends (get_profile self).
Proof. unfold get_profile. extends. Qed.
#[export] Hint Resolve Extends_get_profile : runs.

Lemma Extends_update_resume (self : Client) (file_key profile_id : json) :
  Extends (update_resume self file_key profile_id).
Proof. unfold update_resume. extends. Qed.
#[export] Hint Resolve Extends_update_resume : runs.

Lemma Extends_upload_resume (self : Client) (file_path : string) :
  Extends (upload_resume self file_path).
Proof. unfold upload_resume. extends. Qed.

Lemma Extends_refresh_resume_headline (self : Client) :
  Extends (refresh_resume_headline self).
Proof. unfold refresh_resume_headline. extends. Qed.
#[export] Hint Resolve Extends_upload_resume Extends_refresh_resume_headline : runs.

(** ** HTTP 401 *)

Lemma bind_ok {A B} (m : M A) (k : A -> M B) (w : World) (a : A) (w' : World) :
  m w = (Ok a, w') -> bind m k w = k a w'.
Proof. intros H. unfold bind. now rewrite H. Qed.

Lemma bind_raise {A B} (m : M A) (k : A -> M B) (w : World) (e : exn) (w' : World) :
  m w = (Raise e, w') -> bind m k w = (Raise e, w').
Proof. intros H. unfold bind. now rewrite H. Qed.

Lemma is_cookie_expired_run (w : World) :
  _is_cookie_expired w = (Ok (expired_at (clock w) (cookie_file w)), log EvExpiryCheck w).
Proof. reflexivity. Qed.

Lemma get_profile_unauthorized
    (self : Client) (w w0 : World) (r1 : Response) (rest : list Reply) :
  ready self w w0 ->
  server w0 = Answer r1 :: rest ->
  status_code r1 = 401 ->
  exists v w',
    get_profile self w = (Ok v, w')
    /\ requests (new_events w0 w')
       = [profile_request; login_request self]
         ++ match fst (login self (answered profile_request r1 rest w0)) with
            | Ok _ => [profile_request]
            | Raise _ => []
            end
    /\ (forall l r3 rest',
          rest = l :: Answer r3 :: rest' -> status_code r3 = 401 -> v = JNull).
Proof.
  intros Hready Hs H401.
  unfold get_profile.
  rewrite (bind_ok _ _ _ _ _ (is_cookie_expired_run w)).
  assert (Hentry : forall k : unit -> M json,
             bind (if expired_at (clock w) (cookie_file w) then login self else ret tt) k
                  (log EvExpiryCheck w)
             = k tt w0).
  { intros k. unfold ready in Hready.
    destruct (expired_at (clock w) (cookie_file w)).
    - now rewrite (bind_ok _ _ _ _ _ Hready).
    - now subst w0. }
  rewrite Hentry. clear Hentry Hready.
  unfold try_except.
  rewrite (bind_ok _ _ _ _ _ (send_answered profile_request _ r1 rest Hs)).
  rewrite H401. cbn [Z.eqb Pos.eqb]. unfold bind at 1 2.
  set (w1 := answered profile_request r1 rest w0).
  assert (Hw1 : trace w1 = trace w0 ++ [EvHttp profile_request]) by reflexivity.
  assert (Hs1 : server w1 = rest) by reflexivity.
  destruct (login_run self w1) as (Hs2 & d & Hd & Hr).
  destruct (login self w1) as [[[] | e] w2]; cbn [fst snd] in *.
  - destruct (send_run profile_request w2) as [Ht3 Hs3].
    assert (Hreq : forall w3, trace w3 = trace w2 ++ [EvHttp profile_request] ->
                   requests (new_events w0 w3)
                   = [profile_request; login_request self] ++ [profile_request]).
    { intros w3 H3. rewrite (new_events_app w0 w3
        ([EvHttp profile_request]
           ++ (EvHttp (login_request self) :: d) ++ [EvHttp profile_request])).
      - cbn. rewrite requests_app, Hr. reflexivity.
      - rewrite H3, Hd, Hw1. now rewrite <- !app_assoc. }
    destruct (send profile_request w2) as [[r3 | e3] w3] eqn:Hsend; cbn [snd] in *.
    + assert (Hr3 : forall l r3' rest',
                 rest = l :: Answer r3' :: rest' -> r3 = r3').
      { intros l r3' rest' Hrest.
        assert (Hsw2 : server w2 = Answer r3' :: rest')
          by (rewrite Hs2, Hs1, Hrest; reflexivity).
        rewrite (send_answered _ _ _ _ Hsw2) in Hsend. congruence. }
      destruct (status_code r3 =? 200) eqn:E200.
      * unfold resp_json. destruct (content r3) as [j |]; cbn.
        -- exists j, w3. repeat split; [now apply Hreq |].
           intros l r3' rest' Hrest H3. rewrite <- (Hr3 _ _ _ Hrest) in H3.
           rewrite H3 in E200. discriminate.
        -- exists JNull, w3. repeat split. now apply Hreq.
      * cbn. exists JNull, w3. repeat split. now apply Hreq.
    + cbn. exists JNull, w3. repeat split. now apply Hreq.
  - cbn. exists JNull, w2. repeat split.
    rewrite (new_events_app w0 w2
      ([EvHttp profile_request] ++ EvHttp (login_request self) :: d)).
    + cbn. now rewrite Hr.
    + rewrite Hd, Hw1. now rewrite <- app_assoc.
Qed.

Lemma update_resume_unauthorized
    (self : Client) (file_key profile_id : json) (w : World)
    (r : Response) (rest : list Reply) :
  server w = Answer r :: rest ->
  status_code r = 401 ->
  update_resume self file_key profile_id w
  = (Ok (JBool false), answered (update_request file_key profile_id) r rest w).
Proof.
  intros Hs H401. unfold update_resume, try_except, bind.
  rewrite (send_answered _ _ _ _ Hs). unfold raise_for_status. now rewrite H401.
Qed.

(** C2 (as amended).  Profile fetch: once the session has gone through
    the expiry check (and the login it may force), a profile request that
    is answered with 401 is followed by exactly one login request; the
    profile request is repeated exactly once when that login returns, and
    not at all when it raises; nothing else is sent, and when the repeated
    request is answered with 401 as well the fetch yields [None].  Resume
    update does not log in again: a 401 makes it return [False] after its
    single request. *)
Theorem unauthorized_relogin_once :
  (forall (self : Client) (w w0 : World) (r1 : Response) (rest : list Reply),
      ready self w w0 ->
      server w0 = Answer r1 :: rest ->
      status_code r1 = 401 ->
      exists v w',
        get_profile self w = (Ok v, w')
        /\ requests (new_events w0 w')
           = [profile_request; login_request self]
             ++ match fst (login self (answered profile_request r1 rest w0)) with
                | Ok _ => [profile_request]
                | Raise _ => []
                end
        /\ (forall l r3 rest',
              rest = l :: Answer r3 :: rest' -> status_code r3 = 401 -> v = JNull))
  /\
  (forall (self : Client) (file_key profile_id : json) (w : World)
          (r : Response) (rest : list Reply),
      server w = Answer r :: rest ->
      status_code r = 401 ->
      update_resume self file_key profile_id w
      = (Ok (JBool false), answered (update_request file_key profile_id) r rest w)).
Proof.
  split.
  - exact get_profile_unauthorized.
  - exact update_resume_unauthorized.
Qed.

(** Two 401 in a row: one login, one retry, no result. *)
Lemma unauthorized_relogin_once_witness :
  exists v w',
    get_profile alice
      (world_of (FJson (JArr [])) [] 1000 [unauthorized; good_login; unauthorized])
    = (Ok v, w')
    /\ requests (new_events
                   (log EvExpiryCheck
                      (world_of (FJson (JArr [])) [] 1000
                         [unauthorized; good_login; unauthorized])) w')
       = [profile_request; login_request alice] ++ [profile_request]
    /\ (forall l r3 rest',
          [good_login; unauthorized] = l :: Answer r3 :: rest' ->
          status_code r3 = 401 -> v = JNull).
Proof.
  exact (proj1 unauthorized_relogin_once alice
           (world_of (FJson (JArr [])) [] 1000 [unauthorized; good_login; unauthorized])
           (log EvExpiryCheck
              (world_of (FJson (JArr [])) [] 1000 [unauthorized; good_login; unauthorized]))
           (mkResponse 401 None []) [good_login; unauthorized]
           eq_refl eq_refl eq_refl).
Defined.

(** C2 (as stated) fails for resume update: its request is answered with
    401, it returns [False], and neither the login nor a second request is
    sent; the replies meant for them are still waiting. *)
Lemma update_resume_does_not_relogin :
  let w := world_of (FJson (JArr [])) [] 1000
             [unauthorized; good_login; Answer (mkResponse 200 None [])] in
  let run := update_resume alice (JStr "UR54EQmIiGvBMt") (JStr "12345") w in
  fst run = Ok (JBool false)
  /\ trace (snd run) = [EvHttp (update_request (JStr "UR54EQmIiGvBMt") (JStr "12345"))]
  /\ server (snd run) = [good_login; Answer (mkResponse 200 None [])].
Proof. cbv zeta. repeat split. Qed.

(** ** The expiry check before requests *)

Lemma guarded_true (tr : list Event) : guarded true tr = true.
Proof. induction tr as [| [] tr IH]; cbn; auto. Qed.

Lemma guarded_offline (checked : bool) (d tr : list Event) :
  requests d = [] -> guarded checked tr = true -> guarded checked (d ++ tr) = true.
Proof.
  induction d as [| [] d IH]; cbn; intros H Htr; try discriminate; auto.
  apply guarded_true.
Qed.

Lemma ChecksFirst_check {A} (k : bool -> M A) :
  (forall b, Extends (k b)) -> ChecksFirst (bind _is_cookie_expired k).
Proof.
  intros Hk w. rewrite (bind_ok _ _ _ _ _ (is_cookie_expired_run w)).
  destruct (Hk (expired_at (clock w) (cookie_file w)) (log EvExpiryCheck w)) as [d Hd].
  exists d. rewrite Hd. cbn. now rewrite <- app_assoc.
Qed.

Lemma ChecksFirst_bind {A B} (m : M A) (k : A -> M B) :
  ChecksFirst m -> (forall a, Extends (k a)) -> ChecksFirst (bind m k).
Proof.
  intros Hm Hk w. unfold bind.
  destruct (Hm w) as [d Hd].
  destruct (m w) as [[a | e] w1]; cbn [snd] in *.
  - destruct (Hk a w1) as [d' Hd']. exists (d ++ d').
    rewrite Hd', Hd, <- app_assoc. reflexivity.
  - now exists d.
Qed.

Lemma ChecksFirst_guarded {A} (m : M A) (w : World) :
  ChecksFirst m -> guarded false (new_events w (snd (m w))) = true.
Proof.
  intros H. destruct (H w) as [d Hd].
  rewrite (new_events_app _ _ _ Hd). apply guarded_true.
Qed.

Lemma ChecksFirst_get_profile (self : Client) : ChecksFirst (get_profile self).
Proof.
  unfold get_profile. apply ChecksFirst_check. intros b. extends.
Qed.

Lemma ChecksFirst_refresh_resume_headline (self : Client) :
  ChecksFirst (refresh_resume_headline self).
Proof.
  unfold refresh_resume_headline. apply ChecksFirst_bind.
  - apply ChecksFirst_get_profile.
  - intros profile_data. extends.
Qed.

Lemma Offline_init (user pass : option string) : Offline (__init__ user pass).
Proof. unfold __init__, new_session. offline. Qed.

Lemma main_guarded (args : Args) (w : World) :
  guarded false (new_events w (snd (main args w))) = true.
Proof.
  unfold main, bind at 1.
  destruct (Offline_init (arg_user args) (arg_password args) w) as (_ & d & Hd & Hr).
  destruct (__init__ (arg_user args) (arg_password args) w) as [[client | e] w1];
    cbn [snd] in *.
  - match goal with
    | |- context [bind _is_cookie_expired ?k w1] =>
        destruct (ChecksFirst_check k) with (w := w1) as [d' Hd']
    end.
    { intros b. extends. }
    rewrite (new_events_app w _ (d ++ EvExpiryCheck :: d')).
    + apply (guarded_offline _ _ _ Hr), guarded_true.
    + rewrite Hd', Hd, <- app_assoc. reflexivity.
  - rewrite (new_events_app _ _ _ Hd).
    rewrite <- (app_nil_r d). now apply guarded_offline.
Qed.

Lemma login_then {A} (self : Client) (k : unit -> M A) (w : World) :
  (forall u, Extends (k u)) ->
  exists d, trace (snd (bind (login self) k w)) = trace w ++ EvHttp (login_request self) :: d.
Proof.
  intros Hk. unfold bind.
  destruct (login_run self w) as (_ & d & Hd & _).
  destruct (login self w) as [[u | e] w1]; cbn [snd] in *.
  - destruct (Hk u w1) as [d' Hd']. exists (d ++ d').
    rewrite Hd', Hd, <- app_assoc. reflexivity.
  - now exists d.
Qed.

Lemma get_profile_forced_login (self : Client) (w : World) :
  expired_at (clock w) (cookie_file w) = true ->
  exists d,
    new_events w (snd (get_profile self w))
    = EvExpiryCheck :: EvHttp (login_request self) :: d.
Proof.
  intros Hexp. unfold get_profile.
  rewrite (bind_ok _ _ _ _ _ (is_cookie_expired_run w)), Hexp.
  match goal with
  | |- context [bind (login self) ?k (log EvExpiryCheck w)] =>
      destruct (login_then self k (log EvExpiryCheck w)) as [d Hd]
  end.
  { intros u. extends. }
  exists d. apply new_events_app. rewrite Hd. cbn. now rewrite <- app_assoc.
Qed.

Lemma main_forced_login (args : Args) (w w1 : World) (client : Client) :
  __init__ (arg_user args) (arg_password args) w = (Ok client, w1) ->
  expired_at (clock w1) (cookie_file w1) || jar_empty (cookies w1) = true ->
  exists d,
    new_events w1 (snd (main args w))
    = EvExpiryCheck :: EvHttp (login_request client) :: d.
Proof.
  intros Hinit Hcond. unfold main.
  rewrite (bind_ok _ _ _ _ _ Hinit).
  rewrite (bind_ok _ _ _ _ _ (is_cookie_expired_run w1)).
  rewrite (bind_ok (gets cookies) _ (log EvExpiryCheck w1) (cookies w1) _ eq_refl).
  rewrite Hcond.
  match goal with
  | |- context [bind (login client) ?k (log EvExpiryCheck w1)] =>
      destruct (login_then client k (log EvExpiryCheck w1)) as [d Hd]
  end.
  { intros u. extends. }
  exists d. apply new_events_app. rewrite Hd. cbn. now rewrite <- app_assoc.
Qed.

(** C5 (as amended).  In every run of the command line program no request
    is sent before the expiry check, and when the check reports an expired
    session, or the session has no cookies, the first request is the login
    request.  Profile fetch and headline refresh begin with the expiry
    check themselves, and profile fetch logs in first when the check
    reports an expired session. *)
Theorem expiry_check_precedes_requests :
  (forall (args : Args) (w : World),
      guarded false (new_events w (snd (main args w))) = true)
  /\ (forall (args : Args) (w w1 : World) (client : Client),
         __init__ (arg_user args) (arg_password args) w = (Ok client, w1) ->
         expired_at (clock w1) (cookie_file w1) || jar_empty (cookies w1) = true ->
         exists d,
           new_events w1 (snd (main args w))
           = EvExpiryCheck :: EvHttp (login_request client) :: d)
  /\ (forall (self : Client) (w : World),
         exists d, new_events w (snd (get_profile self w)) = EvExpiryCheck :: d)
  /\ (forall (self : Client) (w : World),
         expired_at (clock w) (cookie_file w) = true ->
         exists d,
           new_events w (snd (get_profile self w))
           = EvExpiryCheck :: EvHttp (login_request self) :: d)
  /\ (forall (self : Client) (w : World),
         exists d, new_events w (snd (refresh_resume_headline self w)) = EvExpiryCheck :: d).
Proof.
  split; [exact main_guarded |].
  split; [exact main_forced_login |].
  split; [| split; [exact get_profile_forced_login |]]; intros self w.
  - destruct (ChecksFirst_get_profile self w) as [d Hd].
    exists d. now apply new_events_app.
  - destruct (ChecksFirst_refresh_resume_headline self w) as [d Hd].
    exists d. now apply new_events_app.
Qed.

(** A first run of the program: no cookie file, credentials from the
    environment; the first request is the login. *)
Lemma expiry_check_precedes_requests_witness :
  exists d,
    new_events world_with_env
      (snd (main (mkArgs None None None true) world_with_env))
    = EvExpiryCheck :: EvHttp (login_request (mkClient "env-user" "env-secret")) :: d.
Proof.
  exact (proj1 (proj2 expiry_check_precedes_requests)
           (mkArgs None None None true) world_with_env world_with_env
           (mkClient "env-user" "env-secret") eq_refl eq_refl).
Defined.

(** C5 (as stated) fails for resume upload: the upload request is sent
    before any expiry check (the check happens afterwards, inside the
    profile fetch); resume update sends its request without any check. *)
Lemma upload_resume_sends_before_check :
  let w := world_with_resume [upload_reply; profile_reply; ok_reply] in
  new_events w (snd (upload_resume alice "cv.pdf" w))
  = [EvHttp (upload_request "cv.pdf");
     EvExpiryCheck;
     EvHttp profile_request;
     EvHttp (update_request (JStr "UR54EQmIiGvBMt") (JStr "12345"))]
  /\ guarded false (new_events w (snd (upload_resume alice "cv.pdf" w))) = false
  /\ new_events w (snd (update_resume alice (JStr "UR54EQmIiGvBMt") (JStr "12345") w))
     = [EvHttp (update_request (JStr "UR54EQmIiGvBMt") (JStr "12345"))].
Proof. cbv zeta. repeat split. Qed.

(** ** Resume upload *)

Lemma send_result (rq : Request) (w : World) :
  (exists r w', send rq w = (Ok r, w'))
  \/ (exists w', send rq w = (Raise ConnectionError, w')).
Proof.
  unfold send, bind, emit, modify, gets. cbn.
  destruct (server w) as [| [r |] rest]; cbn;
    [right | left; exists r | right]; eexists; reflexivity.
Qed.

Lemma update_resume_returns (self : Client) (file_key profile_id : json) (w : World) :
  exists b w', update_resume self file_key profile_id w = (Ok (JBool b), w').
Proof.
  unfold update_resume, try_except, bind.
  destruct (send_result (update_request file_key profile_id) w)
    as [(r & w1 & ->) | (w1 & ->)]; [| cbn; do 2 eexists; reflexivity].
  unfold raise_for_status.
  destruct ((400 <=? status_code r) && (status_code r <? 600)); cbn;
    [do 2 eexists; reflexivity |].
  destruct (status_code r =? 200); cbn; do 2 eexists; reflexivity.
Qed.

(** C7 (as amended).  When the file opens and the upload is answered
    without an error status by a JSON document: if the document is a
    non-empty mapping, the profile fetch that follows yields a profile and
    the first profile has a non-empty [profileId], then the result of the
    upload is the call of
    [update_resume] with the first key of the mapping and that profile id;
    if the document is empty or not a mapping, the upload yields [None] and
    the upload request is all that was sent. *)
Theorem upload_resume_hands_over
    (self : Client) (file_path : string) (w : World)
    (r : Response) (rest : list Reply) (doc : json) :
  disk w file_path = Opened ->
  server w = Answer r :: rest ->
  http_error (status_code r) = false ->
  content r = Some doc ->
  (forall k v more pd w2 pid,
      doc = JObj ((k, v) :: more) ->
      get_profile self (answered (upload_request file_path) r rest w) = (Ok pd, w2) ->
      profile_id_of pd = Ok pid ->
      truthy pid = true ->
      upload_resume self file_path w = update_resume self (JStr k) pid w2)
  /\
  (isdict doc = false \/ doc = JObj [] ->
   upload_resume self file_path w
   = (Ok JNull, answered (upload_request file_path) r rest w)).
Proof.
  intros Hdisk Hs Hst Hdoc.
  unfold http_error in Hst.
  split; [intros k v more pd w2 pid Hk Hprof Hpid Htruthy | intros Hcase];
    unfold upload_resume, try_except;
    unfold bind at 1, gets at 1; rewrite Hdisk;
    rewrite (bind_ok _ _ _ _ _ (send_answered (upload_request file_path) w r rest Hs));
    unfold raise_for_status at 1; rewrite Hst;
    rewrite (bind_ok (ret tt) _ _ tt _ eq_refl);
    unfold resp_json at 1; rewrite Hdoc;
    rewrite (bind_ok (ret doc) _ _ doc _ eq_refl).
  - subst doc.
    cbn [isdict truthy negb orb first_key].
    rewrite (bind_ok (lift (Ok (JStr k))) _ _ (JStr k) _ eq_refl).
    rewrite (bind_ok _ _ _ _ _ Hprof).
    unfold bind at 1, lift at 1. rewrite Hpid, Htruthy. cbn [negb].
    unfold bind at 1, lift at 1.
    destruct (update_resume_returns self (JStr k) pid w2) as (b & w3 & ->).
    reflexivity.
  - destruct Hcase as [Hnd | ->]; [| reflexivity].
    rewrite Hnd. reflexivity.
Qed.

(** The example of the specification: the upload answers with the key
    [UR54EQmIiGvBMt] and the profile fetch with the profile id [12345]. *)
Lemma upload_resume_hands_over_witness :
  upload_resume alice "cv.pdf" (world_with_resume [upload_reply; profile_reply; ok_reply])
  = update_resume alice (JStr "UR54EQmIiGvBMt") (JStr "12345")
      (snd (get_profile alice
              (answered (upload_request "cv.pdf")
                 (mkResponse 200
                    (Some (JObj [("UR54EQmIiGvBMt",
                                  JObj [("url", JStr "//filevalidation.naukri.com/file/download")])]))
                    [])
                 [profile_reply; ok_reply]
                 (world_with_resume [upload_reply; profile_reply; ok_reply])))).
Proof.
  eapply (proj1 (upload_resume_hands_over alice "cv.pdf"
                   (world_with_resume [upload_reply; profile_reply; ok_reply])
                   _ [profile_reply; ok_reply] _ eq_refl eq_refl eq_refl eq_refl));
    reflexivity.
Defined.

(** C7 (as stated) fails for an upload response that is a non-empty
    mapping but carries an error status: the upload yields [None] and its
    request is the only one sent.  It also fails when the first profile
    has an empty [profileId]: the upload yields [False] after the profile
    fetch.  In neither case is [update_resume] called. *)
Lemma upload_resume_mapping_without_update :
  fst (upload_resume alice "cv.pdf"
         (world_with_resume
            [Answer (mkResponse 500
                       (Some (JObj [("UR54EQmIiGvBMt", JObj [("url", JStr "//x")])])) []);
             profile_reply; ok_reply]))
  = Ok JNull
  /\ requests (trace (snd (upload_resume alice "cv.pdf"
                             (world_with_resume
                                [Answer (mkResponse 500
                                           (Some (JObj [("UR54EQmIiGvBMt",
                                                         JObj [("url", JStr "//x")])])) []);
                                 profile_reply; ok_reply]))))
     = [upload_request "cv.pdf"]
  /\ fst (upload_resume alice "cv.pdf"
            (world_with_resume
               [upload_reply;
                Answer (mkResponse 200
                          (Some (JObj [("profile", JArr [JObj [("profileId", JStr "")]])]))
                          []);
                ok_reply]))
     = Ok (JBool false)
  /\ requests (trace (snd (upload_resume alice "cv.pdf"
                             (world_with_resume
                                [upload_reply;
                                 Answer (mkResponse 200
                                           (Some (JObj [("profile",
                                                         JArr [JObj [("profileId", JStr "")]])]))
                                           []);
                                 ok_reply]))))
     = [upload_request "cv.pdf"; profile_request].
Proof. repeat split. Qed.

(** ** Headline refresh *)

Lemma rstrip_dot_unchanged (s : string) :
  ends_with_dot s = false -> rstrip_dot s = s.
Proof.
  induction s as [| a rest IH]; [reflexivity |].
  cbn [ends_with_dot rstrip_dot].
  destruct rest as [| b rest'].
  - cbn. now intros ->.
  - intros H. now rewrite (IH H).
Qed.

Lemma send_checked (rq : Request) (w : World) :
  exists r w',
    bind (send rq) (fun resp => bind (raise_for_status resp) (fun _ => ret resp)) w
    = (r, w')
    /\ trace w' = trace w ++ [EvHttp rq]
    /\ server w' = tl (server w)
    /\ match r with
       | Ok resp => succeeds (server w) = (status_code resp =? 200)
       | Raise e => is_RequestException e = true /\ succeeds (server w) = false
       end.
Proof.
  unfold bind, send, emit, modify, gets, raise_for_status, succeeds. cbn.
  destruct (server w) as [| [r |] rest] eqn:E; cbn.
  - do 2 eexists. split; [reflexivity |]. cbn. rewrite E. repeat split.
  - destruct ((400 <=? status_code r) && (status_code r <? 600)) eqn:Est; cbn.
    + do 2 eexists. split; [reflexivity |]. cbn. repeat split.
      apply andb_prop in Est. destruct Est as [Hlo _].
      apply Z.leb_le in Hlo. apply Z.eqb_neq. lia.
    + do 2 eexists. split; [reflexivity |]. cbn. repeat split.
  - do 2 eexists. split; [reflexivity |]. cbn. repeat split.
Qed.

(** C6 (as amended).  When the profile fetch yields a first profile with a
    non-empty [profileId] and a non-empty string [h] as headline, the
    refresh first submits [h] with its trailing periods removed and one
    period appended (which is [h] followed by a period when [h] does not
    end in a period), and then, only when that submission is answered with
    status 200, submits [h] itself.  The result is [True] exactly when both
    submissions are answered with status 200, and nothing else is sent. *)
Theorem refresh_headline_submissions
    (self : Client) (w w1 : World) (pd : json)
    (fields : list (string * json)) (others : list json) (pid : json) (h : string) :
  get_profile self w = (Ok pd, w1) ->
  get pd "profile" (JArr []) = Ok (JArr (JObj fields :: others)) ->
  lookup "profileId" fields = Some pid ->
  truthy pid = true ->
  lookup "resumeHeadline" fields = Some (JStr h) ->
  h <> "" ->
  (ends_with_dot h = false -> (rstrip_dot h ++ ".")%string = (h ++ ".")%string)
  /\ exists w',
       refresh_resume_headline self w
       = (Ok (JBool (succeeds (server w1) && succeeds (tl (server w1)))), w')
       /\ trace w'
          = trace w1
            ++ EvHttp (headline_request (JStr (rstrip_dot h ++ ".")) pid)
               :: (if succeeds (server w1)
                   then [EvHttp (headline_request (JStr h) pid)]
                   else []).
Proof.
  intros Hprof Hlist Hpid Htruthy Hhead Hne.
  split; [intros H; now rewrite rstrip_dot_unchanged |].
  unfold refresh_resume_headline.
  rewrite (bind_ok _ _ _ _ _ Hprof).
  unfold bind at 1, lift at 1. rewrite Hlist. cbn [truthy negb getitem0].
  unfold bind at 1 2 3, lift at 1 2 3. cbn [get]. rewrite Hpid, Hhead, Htruthy.
  assert (Hh : truthy (JStr h) = true).
  { cbn. destruct (String.eqb_spec h ""); [contradiction | reflexivity]. }
  rewrite Hh. cbn [negb orb rstrip]. unfold bind at 1, lift at 1.
  set (first := headline_request (JStr (rstrip_dot h ++ ".")) pid).
  set (second := headline_request (JStr h) pid).
  unfold try_except.
  pose proof (send_checked first w1) as (r1 & w2 & Hrun1 & Ht1 & Hs1 & Hr1).
  unfold bind at 1 2. unfold bind at 1 2 in Hrun1.
  destruct (send first w1) as [[resp1 | e1] wa]; cbn [fst snd] in *.
  - destruct (raise_for_status resp1 wa) as [[[] | e1] wb]; cbn in Hrun1;
      injection Hrun1 as <- <-.
    + rewrite Hr1. destruct (status_code resp1 =? 200); cbn [negb andb].
      * pose proof (send_checked second wb) as (r2 & w3 & Hrun2 & Ht2 & Hs2 & Hr2).
        unfold bind at 1 2. unfold bind at 1 2 in Hrun2. rewrite <- Hs1.
        destruct (send second wb) as [[resp2 | e2] wc]; cbn [fst snd] in *.
        -- destruct (raise_for_status resp2 wc) as [[[] | e2] wd]; cbn in Hrun2;
             injection Hrun2 as <- <-.
           ++ rewrite Hr2. exists wd. split.
              ** now destruct (status_code resp2 =? 200).
              ** rewrite Ht2, Ht1, <- app_assoc. reflexivity.
           ++ destruct Hr2 as [He2 ->]. rewrite He2. exists wd. split; [reflexivity |].
              rewrite Ht2, Ht1, <- app_assoc. reflexivity.
        -- injection Hrun2 as <- <-. destruct Hr2 as [He2 ->]. rewrite He2.
           exists wc. split; [reflexivity |].
           rewrite Ht2, Ht1, <- app_assoc. reflexivity.
      * exists wb. split; [reflexivity | exact Ht1].
    + destruct Hr1 as [He1 ->]. rewrite He1. exists wb. split; [reflexivity | exact Ht1].
  - injection Hrun1 as <- <-. destruct Hr1 as [He1 ->]. rewrite He1.
    exists wa. split; [reflexivity | exact Ht1].
Qed.

(** The example of the specification: the headline [Senior Engineer]. *)
Lemma refresh_headline_submissions_witness :
  exists w',
    refresh_resume_headline alice
      (world_of (FJson (JArr [])) [] 1000 [profile_reply; ok_reply; ok_reply])
    = (Ok (JBool true), w')
    /\ trace w'
       = [EvExpiryCheck; EvHttp profile_request]
         ++ [EvHttp (headline_request (JStr "Senior Engineer.") (JStr "12345"));
             EvHttp (headline_request (JStr "Senior Engineer") (JStr "12345"))].
Proof.
  apply (proj2 (refresh_headline_submissions alice
                  (world_of (FJson (JArr [])) [] 1000 [profile_reply; ok_reply; ok_reply])
                  (snd (get_profile alice
                          (world_of (FJson (JArr [])) [] 1000
                             [profile_reply; ok_reply; ok_reply])))
                  (JObj [("profile",
                          JArr [JObj [("profileId", JStr "12345");
                                      ("resumeHeadline", JStr "Senior Engineer")]])])
                  [("profileId", JStr "12345"); ("resumeHeadline", JStr "Senior Engineer")]
                  [] (JStr "12345") "Senior Engineer"
                  eq_refl eq_refl eq_refl eq_refl eq_refl
                  (fun H => ltac:(discriminate H)))).
Defined.

(** C6 (as stated) fails for a headline that already ends in a period: the
    first payload is the headline itself, not the headline with a period
    appended. *)
Lemma refresh_headline_keeps_trailing_period :
  requests (trace (snd (refresh_resume_headline alice
                          (world_of (FJson (JArr [])) [] 1000
                             [profile_reply_with_period; ok_reply; ok_reply]))))
  = [profile_request;
     headline_request (JStr "Senior Engineer.") (JStr "12345");
     headline_request (JStr "Senior Engineer.") (JStr "12345")]
  /\ ("Senior Engineer." ++ ".")%string = "Senior Engineer.."%string.
Proof. split; reflexivity. Qed.

(** ** Exceptions at the boundary of the operations *)

(** C9 (the code departs from it).  With a session that is in order and a
    profile endpoint that answers 500, [get_profile] returns [None]; the
    headline refresh then raises [AttributeError] and the resume upload
    raises [TypeError], and neither is caught.  With no cookie file and a
    login response without cookies, the [ValueError] of [login] leaves
    [get_profile]. *)
Theorem exceptions_escape_operations :
  fst (get_profile alice (world_of (FJson (JArr [])) [] 1000 [server_error])) = Ok JNull
  /\ fst (refresh_resume_headline alice (world_of (FJson (JArr [])) [] 1000 [server_error]))
     = Raise AttributeError
  /\ fst (upload_resume alice "cv.pdf" (world_with_resume [upload_reply; server_error]))
     = Raise TypeError
  /\ fst (get_profile alice (world_of FAbsent [] 1000 [login_without_cookies]))
     = Raise ValueError.
Proof. repeat split. Qed.

(** * Further properties of the client *)

(** ** The headline with its period *)

Lemma rstrip_dot_app_dot (s : string) :
  rstrip_dot (s ++ ".") = rstrip_dot s.
Proof.
  induction s as [| a s IH]; [reflexivity |].
  cbn [String.append rstrip_dot]. now rewrite IH.
Qed.

Lemma rstrip_dot_no_trailing (s : string) :
  ends_with_dot (rstrip_dot s) = false.
Proof.
  induction s as [| a s IH]; [reflexivity |].
  cbn [rstrip_dot].
  destruct (rstrip_dot s) as [| b r] eqn:E.
  - destruct (Ascii.eqb a ".") eqn:Ea; cbn; [reflexivity | exact Ea].
  - exact IH.
Qed.

Lemma ends_with_dot_app_dot (s : string) :
  ends_with_dot (s ++ ".") = true.
Proof.
  induction s as [| a s IH]; [reflexivity |].
  cbn [String.append ends_with_dot].
  destruct (s ++ ".")%string eqn:E; [| exact IH].
  destruct s; discriminate.
Qed.

(** X1.  The headline that the refresh submits first, [h.rstrip(".") + "."],
    ends in a period, has no second period before it, and differs from
    the current headline in trailing periods only. *)
Theorem headline_with_dot_shape (h : string) :
  ends_with_dot (rstrip_dot h ++ ".") = true
  /\ ends_with_dot (rstrip_dot h) = false
  /\ rstrip_dot (rstrip_dot h ++ ".") = rstrip_dot h.
Proof.
  split; [apply ends_with_dot_app_dot |].
  split; [apply rstrip_dot_no_trailing |].
  rewrite rstrip_dot_app_dot.
  apply rstrip_dot_unchanged, rstrip_dot_no_trailing.
Qed.

(** ** What a run leaves untouched *)

Section Keeping.

Context {X A B : Type}.
Variable f : World -> X.

Lemma Keeps_ret (a : A) : Keeps f (ret a).
Proof. intros w. reflexivity. Qed.

Lemma Keeps_raise (e : exn) : Keeps f (@raise A e).
Proof. intros w. reflexivity. Qed.

Lemma Keeps_lift (r : result A) : Keeps f (lift r).
Proof. intros w. reflexivity. Qed.

Lemma Keeps_gets (g : World -> A) : Keeps f (gets g).
Proof. intros w. reflexivity. Qed.

Lemma Keeps_modify (g : World -> World) :
  (forall w, f (g w) = f w) -> Keeps f (modify g).
Proof. intros H w. apply H. Qed.

Lemma Keeps_bind (m : M A) (k : A -> M B) :
  Keeps f m -> (forall a, Keeps f (k a)) -> Keeps f (bind m k).
Proof.
  intros Hm Hk w. unfold bind. specialize (Hm w).
  destruct (m w) as [[a | e] w1]; cbn [snd] in *; [| exact Hm].
  now rewrite (Hk a w1).
Qed.

Lemma Keeps_try_except (m : M A) (catches : exn -> bool) (h : M A) :
  Keeps f m -> Keeps f h -> Keeps f (try_except m catches h).
Proof.
  intros Hm Hh w. unfold try_except. specialize (Hm w).
  destruct (m w) as [[a | e] w1]; cbn [snd] in *; [exact Hm |].
  destruct (catches e); cbn [snd]; [| exact Hm].
  now rewrite (Hh w1).
Qed.

End Keeping.

(** Decompose a goal [Keeps f m] along the structure of [m]; a [modify]
    is settled by computation. *)
Ltac keeps :=
  repeat first
    [ apply Keeps_ret | apply Keeps_raise | apply Keeps_lift | apply Keeps_gets
    | solve [auto]
    | apply Keeps_modify; intro; reflexivity
    | apply Keeps_bind; [| intro]
    | apply Keeps_try_except
    | match goal with
      | |- Keeps _ (if ?b then _ else _) => destruct b
      | |- Keeps _ (match ?x with _ => _ end) => destruct x
      end ].

Lemma set_each_keeps_file (cs : list json) : Keeps cookie_file (set_each cs).
Proof. induction cs as [| c rest IH]; cbn [set_each]; keeps. Qed.

Lemma set_each_keeps_clock (cs : list json) : Keeps clock (set_each cs).
Proof. induction cs as [| c rest IH]; cbn [set_each]; keeps. Qed.

Lemma send_keeps_file (rq : Request) : Keeps cookie_file (send rq).
Proof.
  intros w. unfold send, bind, emit, modify, gets. cbn.
  destruct (server w) as [| [r |] rest]; reflexivity.
Qed.

Lemma send_keeps_clock (rq : Request) : Keeps clock (send rq).
Proof.
  intros w. unfold send, bind, emit, modify, gets. cbn.
  destruct (server w) as [| [r |] rest]; reflexivity.
Qed.

(** ** Cookie lists ([_set_cookies_from_json]) *)

(** X2.  A cookie list all of whose entries are objects that lack the key
    [name] or the key [value] is accepted and changes nothing: the entries
    are passed over. *)
Theorem set_cookies_skips_incomplete (cs : list json) (w : World) :
  forallb incomplete cs = true ->
  _set_cookies_from_json (JArr cs) w = (Ok tt, w).
Proof.
  unfold _set_cookies_from_json, bind at 1, lift at 1. cbn [iter].
  induction cs as [| c rest IH]; [reflexivity |].
  cbn [forallb]. intros H. apply andb_prop in H. destruct H as [Hc Hrest].
  destruct c as [| | | | | fields]; try discriminate.
  cbn [incomplete] in Hc. cbn [set_each]. unfold bind, lift, ret. cbn [py_in].
  destruct (lookup "name" fields); [destruct (lookup "value" fields); [discriminate |] |];
    now apply IH.
Qed.

Lemma set_cookies_skips_incomplete_witness :
  _set_cookies_from_json
    (JArr [JObj [("name", JStr "nauk_at")]; JObj [("value", JStr "tok")]; JObj []])
    (world_of FAbsent [] 100 [])
  = (Ok tt, world_of FAbsent [] 100 []).
Proof.
  apply (set_cookies_skips_incomplete
           [JObj [("name", JStr "nauk_at")]; JObj [("value", JStr "tok")]; JObj []]
           (world_of FAbsent [] 100 [])).
  reflexivity.
Defined.










(** ** Loading, saving and logging out *)

Lemma load_cookies_keeps_file : Keeps cookie_file _load_cookies.
Proof.
  unfold _load_cookies, _set_cookies_from_json.
  pose proof set_each_keeps_file. keeps.
Qed.

(** X4.  [_load_cookies] never raises, whatever the cookie file holds; it
    sends nothing, writes nothing and leaves the file as it is.  With no
    file, or one that cannot be read, the session is left as it is too. *)
Theorem load_cookies_is_harmless (w : World) :
  exists w',
    _load_cookies w = (Ok tt, w')
    /\ cookie_file w' = cookie_file w
    /\ server w' = server w
    /\ trace w' = trace w
    /\ (cookie_file w = FAbsent \/ cookie_file w = FUnreadable -> w' = w).
Proof.
  destruct (load_cookies_returns w) as [w' Hrun]. exists w'.
  pose proof (load_cookies_keeps_file w) as Hfile.
  assert (Htrace : Keeps trace _load_cookies).
  { unfold _load_cookies, _set_cookies_from_json.
    assert (Hset : forall cs, Keeps trace (set_each cs))
      by (induction cs as [| c rest IH]; cbn [set_each]; keeps).
    keeps. }
  assert (Hserver : Keeps server _load_cookies).
  { unfold _load_cookies, _set_cookies_from_json.
    assert (Hset : forall cs, Keeps server (set_each cs))
      by (induction cs as [| c rest IH]; cbn [set_each]; keeps).
    keeps. }
  specialize (Htrace w). specialize (Hserver w).
  rewrite Hrun in Hfile, Htrace, Hserver. cbn [snd] in *.
  repeat split; try assumption.
  intros Hf. unfold _load_cookies, bind, gets in Hrun.
  destruct Hf as [Hf | Hf]; rewrite Hf in Hrun; now injection Hrun.
Qed.

(** X5.  When there is no cookie file, or the file system lets it be
    removed, [logout] returns without sending anything; afterwards the
    session has no cookies and no cookie file, and the next profile fetch
    starts with the expiry check followed by the login request.  When the
    file is there and cannot be removed, [logout] raises the error of the
    file system after it has cleared the session, and the file stays. *)
Theorem logout_forces_next_login (w : World) :
  (cookie_file w = FAbsent \/ unlink_fault w = None ->
   exists w',
     logout w = (Ok tt, w')
     /\ cookies w' = []
     /\ cookie_file w' = FAbsent
     /\ server w' = server w
     /\ requests (new_events w w') = []
     /\ (forall self,
           exists d,
             new_events w' (snd (get_profile self w'))
             = EvExpiryCheck :: EvHttp (login_request self) :: d))
  /\ (forall e,
        cookie_file w <> FAbsent ->
        unlink_fault w = Some e ->
        logout w = (Raise e, with_cookies [] w)).
Proof.
  split.
  - intros Hok.
    assert (Hrun : exists w' d,
               logout w = (Ok tt, w') /\ cookies w' = [] /\ cookie_file w' = FAbsent
               /\ server w' = server w /\ trace w' = trace w ++ d /\ requests d = []).
    { unfold logout, bind, modify, gets, emit, raise. cbn.
      destruct (cookie_file w) eqn:Hf; cbn.
      - exists (with_cookies [] w), []. cbn. rewrite app_nil_r. now repeat split.
      - destruct Hok as [Hok | Hok]; [discriminate |]. rewrite Hok.
        eexists _, [EvFileDelete]. now repeat split.
      - destruct Hok as [Hok | Hok]; [discriminate |]. rewrite Hok.
        eexists _, [EvFileDelete]. now repeat split. }
    destruct Hrun as (w' & d & Hrun & HJ & Hf & Hs & Ht & Hd).
    exists w'. repeat split; try assumption.
    + now rewrite (new_events_app _ _ _ Ht).
    + intros self. apply get_profile_forced_login. now rewrite Hf.
  - intros e Hf He. unfold logout, bind, modify, gets, raise. cbn.
    destruct (cookie_file w); [contradiction | |]; cbn; now rewrite He.
Qed.

Lemma logout_forces_next_login_witness :
  exists w',
    logout (world_of (FJson (JArr [])) [server_cookie] 1000 [profile_reply]) = (Ok tt, w')
    /\ cookies w' = []
    /\ cookie_file w' = FAbsent
    /\ server w' = [profile_reply]
    /\ requests (new_events
                   (world_of (FJson (JArr [])) [server_cookie] 1000 [profile_reply]) w')
       = []
    /\ (forall self,
          exists d,
            new_events w' (snd (get_profile self w'))
            = EvExpiryCheck :: EvHttp (login_request self) :: d).
Proof.
  apply (proj1 (logout_forces_next_login
                  (world_of (FJson (JArr [])) [server_cookie] 1000 [profile_reply]))).
  right. reflexivity.
Defined.

Lemma saved_entries_unexpired (now t : Z) (J : Jar) :
  t <= now + 3600 -> forallb (unexpired t) (map (cookie_entry now) J) = true.
Proof.
  intros Ht. induction J as [| c J IH]; [reflexivity |].
  cbn [map forallb]. rewrite IH, andb_true_r.
  cbn. apply orb_true_iff. right. now apply Z.leb_le.
Qed.

Lemma saved_file_validity (now t : Z) (J : Jar) :
  (t <= now + 3600 ->
   expired_at t (FJson (JArr (map (cookie_entry now) J))) = false)
  /\ (now + 3600 < t -> J <> [] -> now + 3600 <> 0 ->
      expired_at t (FJson (JArr (map (cookie_entry now) J))) = true).
Proof.
  split.
  - intros Ht. apply expired_at_verdict, Verdict_valid. now apply saved_entries_unexpired.
  - intros Ht HJ Hnz. apply expired_at_verdict.
    destruct J as [| c J]; [contradiction |].
    apply (Verdict_past _ _ (cookie_entry now c)); [left; reflexivity |].
    eexists _, (now + 3600). repeat split; [exact Hnz | exact Ht].
Qed.

(** X6.  When the file system lets the cookie file be written,
    [_save_cookies] returns, leaves the session as it is, and the file it
    has written passes the expiry check at every time up to 3600 seconds
    after the save, whatever the session holds; later than that the file
    fails the check when the session held at least one cookie (and the
    recorded expiry is not 0). *)
Theorem saved_cookies_valid_for_an_hour (w : World) (t : Z) :
  write_fault w = None ->
  fst (_save_cookies w) = Ok tt
  /\ cookies (snd (_save_cookies w)) = cookies w
  /\ (t <= clock w + 3600 ->
      expired_at t (cookie_file (snd (_save_cookies w))) = false)
  /\ (clock w + 3600 < t -> cookies w <> [] -> clock w + 3600 <> 0 ->
      expired_at t (cookie_file (snd (_save_cookies w))) = true).
Proof.
  intros Hwrite. unfold _save_cookies, bind, gets. rewrite Hwrite.
  split; [reflexivity |]. split; [reflexivity |].
  exact (saved_file_validity (clock w) t (cookies w)).
Qed.

Lemma saved_cookies_valid_for_an_hour_witness :
  expired_at 4600
    (cookie_file (snd (_save_cookies (world_of FAbsent [server_cookie] 1000 []))))
  = false
  /\ expired_at 4601
       (cookie_file (snd (_save_cookies (world_of FAbsent [server_cookie] 1000 []))))
     = true.
Proof.
  split.
  - apply (proj1 (proj2 (proj2 (saved_cookies_valid_for_an_hour
                                  (world_of FAbsent [server_cookie] 1000 []) 4600
                                  eq_refl)))).
    cbn. lia.
  - apply (proj2 (proj2 (proj2 (saved_cookies_valid_for_an_hour
                                  (world_of FAbsent [server_cookie] 1000 []) 4601
                                  eq_refl))));
      cbn; [lia | discriminate | lia].
Defined.

(** ** Login *)

Lemma WritesOrLeaves_bind {A} (m : M A) (k : A -> M unit) :
  Keeps cookie_file m -> Keeps clock m ->
  (forall a, WritesOrLeaves (k a)) -> WritesOrLeaves (bind m k).
Proof.
  intros Hf Hc Hk w. unfold bind. specialize (Hf w). specialize (Hc w).
  destruct (m w) as [[a | e] w1]; cbn [snd] in *; [| now split].
  specialize (Hk a w1). destruct (k a w1) as [[u | e] w2];
    destruct Hk as [H1 H2]; split; congruence.
Qed.

Lemma WritesOrLeaves_raise (e : exn) : WritesOrLeaves (raise e).
Proof. intros w. now split. Qed.

Lemma WritesOrLeaves_save : WritesOrLeaves _save_cookies.
Proof.
  intros w. unfold _save_cookies, bind, gets.
  destruct (write_fault w); now split.
Qed.

Lemma login_WritesOrLeaves (self : Client) : WritesOrLeaves (login self).
Proof.
  unfold login.
  apply WritesOrLeaves_bind; [apply send_keeps_file | apply send_keeps_clock | intros resp].
  apply WritesOrLeaves_bind; [unfold raise_for_status; keeps .. | intros _].
  apply WritesOrLeaves_bind; [unfold resp_json; keeps .. | intros data].
  apply WritesOrLeaves_bind; [keeps .. | intros has].
  destruct (negb has); [apply WritesOrLeaves_raise |].
  apply WritesOrLeaves_bind; [keeps .. | intros cookie_list].
  apply WritesOrLeaves_bind; [| | intros _; apply WritesOrLeaves_save];
    unfold _set_cookies_from_json.
  - pose proof set_each_keeps_file. keeps.
  - pose proof set_each_keeps_clock. keeps.
Qed.


(** X8.  After a login that returned, the cookie file passes the expiry
    check for the next 3600 seconds: the session is valid and the next
    operation does not log in again on account of the file. *)
Theorem login_establishes_validity (self : Client) (w w' : World) (t : Z) :
  login self w = (Ok tt, w') ->
  t <= clock w + 3600 ->
  expired_at t (cookie_file w') = false
  /\ fst (_is_cookie_expired w') = Ok false.
Proof.
  intros Hrun Ht.
  pose proof (login_WritesOrLeaves self w) as H. rewrite Hrun in H.
  destruct H as [Hfile Hclock]. split.
  - rewrite Hfile. now apply saved_file_validity.
  - cbn. rewrite Hclock, Hfile. f_equal. apply saved_file_validity. lia.
Qed.

Lemma login_establishes_validity_witness :
  expired_at 2000
    (cookie_file (snd (login alice (world_of FAbsent [] 1000 [good_login])))) = false
  /\ fst (_is_cookie_expired (snd (login alice (world_of FAbsent [] 1000 [good_login]))))
     = Ok false.
Proof.
  apply (login_establishes_validity alice (world_of FAbsent [] 1000 [good_login])
           (snd (login alice (world_of FAbsent [] 1000 [good_login]))) 2000).
  - reflexivity.
  - cbn. lia.
Defined.

(** ** Profile fetch *)

Lemma get_profile_unfold (self : Client) (w : World) :
  get_profile self w
  = bind (if expired_at (clock w) (cookie_file w) then login self else ret tt)
         (fun _ => fetch_block self) (log EvExpiryCheck w).
Proof. reflexivity. Qed.

Lemma get_profile_enters (self : Client) (w w0 : World) :
  ready self w w0 -> get_profile self w = fetch_block self w0.
Proof.
  intros Hready. rewrite get_profile_unfold. unfold ready in Hready.
  destruct (expired_at (clock w) (cookie_file w)).
  - now rewrite (bind_ok _ _ _ _ _ Hready).
  - now subst w0.
Qed.

Lemma fetch_block_run (self : Client) (w0 : World) :
  exists v w' d,
    fetch_block self w0 = (Ok v, w')
    /\ trace w' = trace w0 ++ d
    /\ In (requests d) (fetch_sequences self)
    /\ (unauthorized_next (server w0) = false ->
        v = fetch_outcome (server w0)
        /\ requests d = [profile_request]
        /\ cookie_file w' = cookie_file w0).
Proof.
  unfold fetch_block, try_except.
  destruct (send_run profile_request w0) as [Ht1 Hs1].
  pose proof (send_keeps_file profile_request w0) as Hf1.
  destruct (server w0) as [| [r1 |] rest] eqn:Hs.
  - (* no reply *)
    unfold bind at 1 2. 
    assert (Hsend : send profile_request w0
                    = (Raise ConnectionError, log (EvHttp profile_request) w0)).
    { unfold send, bind, emit, modify, gets. cbn. now rewrite Hs. }
    rewrite Hsend. cbn.
    exists JNull, (log (EvHttp profile_request) w0), [EvHttp profile_request].
    repeat split. now left.
  - (* a response *)
    rewrite (bind_ok _ _ _ _ _ (send_answered profile_request w0 r1 rest Hs)).
    set (w1 := answered profile_request r1 rest w0).
    assert (Hw1 : trace w1 = trace w0 ++ [EvHttp profile_request]) by reflexivity.
    destruct (status_code r1 =? 401) eqn:E401.
    + (* unauthorized: log in and repeat *)
      unfold bind at 1 2.
      destruct (login_run self w1) as (_ & d & Hd & Hr).
      destruct (login self w1) as [[[] | e] w2]; cbn [fst snd] in *.
      * destruct (send_run profile_request w2) as [Ht3 _].
        assert (Hin : In (requests (EvHttp profile_request
                                      :: (EvHttp (login_request self) :: d)
                                      ++ [EvHttp profile_request]))
                         (fetch_sequences self)).
        { cbn. rewrite requests_app, Hr. cbn. auto. }
        assert (Htr : forall w3, trace w3 = trace w2 ++ [EvHttp profile_request] ->
                      trace w3 = trace w0 ++ EvHttp profile_request
                                   :: (EvHttp (login_request self) :: d)
                                   ++ [EvHttp profile_request]).
        { intros w3 H3. rewrite H3, Hd, Hw1. now rewrite <- !app_assoc. }
        destruct (send profile_request w2) as [[r3 | e3] w3]; cbn [snd] in *.
        -- destruct (status_code r3 =? 200).
           ++ unfold resp_json. destruct (content r3) as [j |]; cbn;
                do 3 eexists; (split; [reflexivity |]);
                (split; [now apply Htr |]); (split; [exact Hin |]);
                cbn; rewrite E401; discriminate.
           ++ cbn. do 3 eexists. split; [reflexivity |].
              split; [now apply Htr |]. split; [exact Hin |].
              cbn. rewrite E401. discriminate.
        -- cbn. do 3 eexists. split; [reflexivity |].
           split; [now apply Htr |]. split; [exact Hin |].
           cbn. rewrite E401. discriminate.
      * cbn. exists JNull, w2, (EvHttp profile_request :: EvHttp (login_request self) :: d).
        split; [reflexivity |]. split; [rewrite Hd, Hw1; now rewrite <- app_assoc |].
        split; [cbn; rewrite Hr; cbn; auto |].
        cbn. rewrite E401. discriminate.
    + (* any other status *)
      rewrite (bind_ok (ret r1) _ _ r1 _ eq_refl).
      cbn [fetch_outcome].
      destruct (status_code r1 =? 200).
      * unfold resp_json. destruct (content r1) as [j |]; cbn;
          do 2 eexists; exists [EvHttp profile_request];
          (split; [reflexivity |]); (split; [exact Hw1 |]);
          (split; [cbn; auto |]); intros _; repeat split.
      * cbn. do 2 eexists. exists [EvHttp profile_request].
        split; [reflexivity |]. split; [exact Hw1 |].
        split; [cbn; auto |]. intros _. repeat split.
  - (* the transport fails *)
    unfold bind at 1 2.
    assert (Hsend : send profile_request w0
                    = (Raise ConnectionError,
                       with_server rest (log (EvHttp profile_request) w0))).
    { unfold send, bind, emit, modify, gets. cbn. now rewrite Hs. }
    rewrite Hsend. cbn.
    exists JNull, (with_server rest (log (EvHttp profile_request) w0)),
      [EvHttp profile_request].
    repeat split. now left.
Qed.

(** X9.  Whatever the service answers, a call of [get_profile] sends one
    of seven sequences of requests: the profile request, possibly followed
    by one login and then by one repetition of the profile request, the
    whole possibly preceded by the login that an expired cookie file
    forces.  It never sends more than two logins and two profile
    requests. *)
Theorem get_profile_request_sequences (self : Client) (w : World) :
  In (requests (new_events w (snd (get_profile self w)))) (get_profile_sequences self)
  /\ (List.length (requests (new_events w (snd (get_profile self w)))) <= 4)%nat.
Proof.
  assert (Hin : In (requests (new_events w (snd (get_profile self w))))
                   (get_profile_sequences self)).
  { rewrite get_profile_unfold. unfold get_profile_sequences.
    destruct (expired_at (clock w) (cookie_file w)).
    - unfold bind.
      destruct (login_run self (log EvExpiryCheck w)) as (_ & d & Hd & Hr).
      destruct (login self (log EvExpiryCheck w)) as [[[] | e] w0]; cbn [snd] in *.
      + destruct (fetch_block_run self w0) as (v & w' & d' & Hrun & Ht & Hseq & _).
        rewrite Hrun. cbn [snd].
        rewrite (new_events_app w w'
                   (EvExpiryCheck :: (EvHttp (login_request self) :: d) ++ d')).
        * cbn [requests app]. rewrite requests_app, Hr. cbn [app].
          apply in_or_app. right. right. now apply in_map.
        * rewrite Ht, Hd. cbn. now rewrite <- !app_assoc.
      + rewrite (new_events_app w w0 (EvExpiryCheck :: EvHttp (login_request self) :: d)).
        * cbn [requests]. rewrite Hr. apply in_or_app. right. now left.
        * rewrite Hd. cbn. now rewrite <- app_assoc.
    - rewrite (bind_ok (ret tt) _ _ tt _ eq_refl).
      destruct (fetch_block_run self (log EvExpiryCheck w))
        as (v & w' & d' & Hrun & Ht & Hseq & _).
      rewrite Hrun. cbn [snd].
      rewrite (new_events_app w w' (EvExpiryCheck :: d')).
      + cbn [requests]. apply in_or_app. now left.
      + rewrite Ht. cbn. now rewrite <- app_assoc. }
  split; [exact Hin |].
  remember (requests (new_events w (snd (get_profile self w)))) as reqs eqn:E.
  clear E. cbn in Hin.
  repeat (destruct Hin as [<- | Hin]; [cbn; lia |]). contradiction.
Qed.

(** X10.  [get_profile] returns a result whenever the cookie file passes
    the expiry check; an exception leaves it only when the check fails and
    the login it forces raises, and it is the exception of that login. *)
Theorem get_profile_raises_only_at_forced_login (self : Client) (w : World) :
  (expired_at (clock w) (cookie_file w) = false ->
   exists v w', get_profile self w = (Ok v, w'))
  /\ (forall e w',
         get_profile self w = (Raise e, w') ->
         expired_at (clock w) (cookie_file w) = true
         /\ login self (log EvExpiryCheck w) = (Raise e, w')).
Proof.
  rewrite get_profile_unfold.
  destruct (expired_at (clock w) (cookie_file w)); split.
  - discriminate.
  - intros e w'. unfold bind.
    destruct (login self (log EvExpiryCheck w)) as [[[] | e0] w0].
    + destruct (fetch_block_run self w0) as (v & w1 & d & Hrun & _).
      rewrite Hrun. discriminate.
    + intros H. injection H as <- <-. now split.
  - intros _. rewrite (bind_ok (ret tt) _ _ tt _ eq_refl).
    destruct (fetch_block_run self (log EvExpiryCheck w)) as (v & w1 & d & Hrun & _).
    eauto.
  - intros e w'. rewrite (bind_ok (ret tt) _ _ tt _ eq_refl).
    destruct (fetch_block_run self (log EvExpiryCheck w)) as (v & w1 & d & Hrun & _).
    rewrite Hrun. discriminate.
Qed.

Lemma get_profile_raises_only_at_forced_login_witness :
  exists v w',
    get_profile alice (world_of (FJson (JArr [])) [] 1000 [NetworkFailure]) = (Ok v, w').
Proof.
  apply (proj1 (get_profile_raises_only_at_forced_login alice
                  (world_of (FJson (JArr [])) [] 1000 [NetworkFailure]))).
  reflexivity.
Defined.

(** X11.  Once the session has gone through the expiry check, a profile
    request that is not answered with 401 is the only request of the call:
    the result is the JSON body when the status is 200 and the body is
    JSON, and [None] for every other status, for a body that is not JSON
    and for a failure of the transport; the cookie file is not touched. *)
Theorem get_profile_single_request (self : Client) (w w0 : World) :
  ready self w w0 ->
  unauthorized_next (server w0) = false ->
  exists w',
    get_profile self w = (Ok (fetch_outcome (server w0)), w')
    /\ requests (new_events w0 w') = [profile_request]
    /\ cookie_file w' = cookie_file w0.
Proof.
  intros Hready Hnot. rewrite (get_profile_enters self w w0 Hready).
  destruct (fetch_block_run self w0) as (v & w' & d & Hrun & Ht & _ & Hsingle).
  destruct (Hsingle Hnot) as (-> & Hreq & Hfile).
  exists w'. split; [exact Hrun |]. split; [| exact Hfile].
  now rewrite (new_events_app _ _ _ Ht).
Qed.

Lemma get_profile_single_request_witness :
  exists w',
    get_profile alice (world_of (FJson (JArr [])) [] 1000 [server_error])
    = (Ok JNull, w')
    /\ requests (new_events
                   (log EvExpiryCheck (world_of (FJson (JArr [])) [] 1000 [server_error]))
                   w')
       = [profile_request]
    /\ cookie_file w' = FJson (JArr []).
Proof.
  exact (get_profile_single_request alice
           (world_of (FJson (JArr [])) [] 1000 [server_error])
           (log EvExpiryCheck (world_of (FJson (JArr [])) [] 1000 [server_error]))
           eq_refl eq_refl).
Defined.

(** ** Resume update and resume upload *)


(** X13.  [upload_resume] gives up before the profile fetch in three ways:
    a missing file yields [None] and nothing is sent; a file that cannot
    be opened for another reason lets the [PermissionError] through; and
    an upload request that fails, or is answered with an error status,
    yields [None] with that request as the only action. *)
Theorem upload_resume_gives_up_early (self : Client) (file_path : string) (w : World) :
  (disk w file_path = Missing -> upload_resume self file_path w = (Ok JNull, w))
  /\ (disk w file_path = Denied ->
      upload_resume self file_path w = (Raise PermissionError, w))
  /\ (disk w file_path = Opened ->
      (forall r rest, server w = Answer r :: rest -> http_error (status_code r) = true) ->
      exists w',
        upload_resume self file_path w = (Ok JNull, w')
        /\ trace w' = trace w ++ [EvHttp (upload_request file_path)]
        /\ cookie_file w' = cookie_file w).
Proof.
  split; [| split]; intros Hdisk; unfold upload_resume, try_except;
    unfold bind at 1, gets at 1; rewrite Hdisk; try reflexivity.
  intros Herr. unfold bind, send, emit, modify, gets, raise_for_status. cbn.
  destruct (server w) as [| [r |] rest] eqn:Hs; cbn.
  - eexists. now split.
  - specialize (Herr r rest eq_refl). unfold http_error in Herr. rewrite Herr. cbn.
    eexists. now split.
  - eexists. now split.
Qed.

Lemma upload_resume_gives_up_early_witness :
  upload_resume alice "cv.pdf" (world_of FAbsent [] 1000 [upload_reply])
  = (Ok JNull, world_of FAbsent [] 1000 [upload_reply])
  /\ exists w',
       upload_resume alice "cv.pdf" (world_with_resume [server_error]) = (Ok JNull, w')
       /\ trace w' = [] ++ [EvHttp (upload_request "cv.pdf")]
       /\ cookie_file w' = FJson (JArr []).
Proof.
  split.
  - apply (proj1 (upload_resume_gives_up_early alice "cv.pdf"
                    (world_of FAbsent [] 1000 [upload_reply]))).
    reflexivity.
  - apply (proj2 (proj2 (upload_resume_gives_up_early alice "cv.pdf"
                           (world_with_resume [server_error])))).
    + reflexivity.
    + intros r rest H. injection H as <- _. reflexivity.
Defined.

(** X14.  When the upload has succeeded and the profile fetch yields a
    first profile whose [profileId] is empty, [upload_resume] returns
    [False] and [update_resume] is not called: nothing is sent after the
    profile fetch. *)
Theorem upload_resume_without_profile_id
    (self : Client) (file_path : string) (w w2 : World)
    (r : Response) (rest : list Reply) (k : string) (v : json)
    (more : list (string * json)) (pd pid : json) :
  disk w file_path = Opened ->
  server w = Answer r :: rest ->
  http_error (status_code r) = false ->
  content r = Some (JObj ((k, v) :: more)) ->
  get_profile self (answered (upload_request file_path) r rest w) = (Ok pd, w2) ->
  profile_id_of pd = Ok pid ->
  truthy pid = false ->
  upload_resume self file_path w = (Ok (JBool false), w2).
Proof.
  intros Hdisk Hs Hst Hdoc Hprof Hpid Hfalsy.
  unfold http_error in Hst.
  unfold upload_resume, try_except.
  unfold bind at 1, gets at 1. rewrite Hdisk.
  rewrite (bind_ok _ _ _ _ _ (send_answered (upload_request file_path) w r rest Hs)).
  unfold raise_for_status at 1. rewrite Hst.
  rewrite (bind_ok (ret tt) _ _ tt _ eq_refl).
  unfold resp_json at 1. rewrite Hdoc.
  rewrite (bind_ok (ret (JObj ((k, v) :: more))) _ _ _ _ eq_refl).
  cbn [isdict truthy negb orb first_key].
  rewrite (bind_ok (lift (Ok (JStr k))) _ _ (JStr k) _ eq_refl).
  rewrite (bind_ok _ _ _ _ _ Hprof).
  unfold bind at 1, lift at 1. rewrite Hpid, Hfalsy. reflexivity.
Qed.

Lemma upload_resume_without_profile_id_witness :
  upload_resume alice "cv.pdf"
    (world_with_resume
       [upload_reply;
        Answer (mkResponse 200
                  (Some (JObj [("profile", JArr [JObj [("profileId", JStr "")]])])) [])])
  = (Ok (JBool false),
     snd (get_profile alice
            (answered (upload_request "cv.pdf")
               (mkResponse 200
                  (Some (JObj [("UR54EQmIiGvBMt",
                                JObj [("url", JStr "//filevalidation.naukri.com/file/download")])]))
                  [])
               [Answer (mkResponse 200
                          (Some (JObj [("profile", JArr [JObj [("profileId", JStr "")]])]))
                          [])]
               (world_with_resume
                  [upload_reply;
                   Answer (mkResponse 200
                             (Some (JObj [("profile", JArr [JObj [("profileId", JStr "")]])]))
                             [])])))).
Proof.
  eapply (upload_resume_without_profile_id alice "cv.pdf"); reflexivity.
Defined.

(** ** Headline refresh *)

(** X15.  When the profile fetch yields a document without a usable first
    profile (no profile list or an empty one, or a first profile whose
    profile id or headline is missing or empty), the headline refresh
    returns [False] and submits nothing: the world is the one the profile
    fetch left. *)
Theorem refresh_headline_declines (self : Client) (w w1 : World) (pd : json) :
  get_profile self w = (Ok pd, w1) ->
  declines pd = true ->
  refresh_resume_headline self w = (Ok (JBool false), w1).
Proof.
  intros Hprof Hdec. unfold refresh_resume_headline.
  rewrite (bind_ok _ _ _ _ _ Hprof).
  destruct pd as [| | | | | top]; try discriminate.
  unfold bind at 1, lift at 1. cbn [get]. cbn [declines] in Hdec.
  destruct (truthy (match lookup "profile" top with Some v => v | None => JArr [] end))
    eqn:Et; cbn [negb]; [| reflexivity].
  destruct (match lookup "profile" top with Some v => v | None => JArr [] end)
    as [| | | | [| [| | | | | fields] others] |]; try discriminate.
  cbn [getitem0]. unfold bind, lift. cbn [get].
  apply orb_prop in Hdec. destruct Hdec as [H | H]; rewrite H; cbn [orb];
    [| rewrite orb_true_r]; reflexivity.
Qed.

Lemma refresh_headline_declines_witness :
  refresh_resume_headline alice
    (world_of (FJson (JArr [])) [] 1000
       [Answer (mkResponse 200 (Some (JObj [("profile", JArr [])])) []); ok_reply])
  = (Ok (JBool false),
     snd (get_profile alice
            (world_of (FJson (JArr [])) [] 1000
               [Answer (mkResponse 200 (Some (JObj [("profile", JArr [])])) []);
                ok_reply]))).
Proof.
  apply (refresh_headline_declines alice _ _ (JObj [("profile", JArr [])]));
    reflexivity.
Defined.

(** ** The two entry points *)

(** X16.  When either credential is provided neither by an argument nor by
    the environment, the command line program stops with [ValueError]
    before it has done anything: no expiry check, no request, no change to
    the session or to the cookie file. *)
Theorem main_missing_credentials (args : Args) (w : World) :
  provided (py_or (arg_user args) (environ w "NAUKRI_USERNAME")) = false
  \/ provided (py_or (arg_password args) (environ w "NAUKRI_PASSWORD")) = false ->
  main args w = (Raise ValueError, w).
Proof.
  intros H. unfold main. apply bind_raise.
  unfold __init__, bind, gets.
  destruct H as [H | H]; rewrite H; [| rewrite orb_true_r]; reflexivity.
Qed.

Lemma main_missing_credentials_witness :
  main (mkArgs (Some "alice") None (Some "cv.pdf") false) (world_of FAbsent [] 1000 [])
  = (Raise ValueError, world_of FAbsent [] 1000 []).
Proof.
  apply (main_missing_credentials (mkArgs (Some "alice") None (Some "cv.pdf") false)
           (world_of FAbsent [] 1000 [])).
  right. reflexivity.
Defined.

(** X17.  Without [--upload] and [--refresh] the command line program does
    nothing beyond making the session valid: once the client is built, it
    sends the login request when the cookie file is expired or the session
    has no cookies, and no request at all otherwise. *)
Theorem main_without_action (args : Args) (w w1 : World) (client : Client) :
  provided (arg_upload args) = false ->
  arg_refresh args = false ->
  __init__ (arg_user args) (arg_password args) w = (Ok client, w1) ->
  requests (new_events w1 (snd (main args w)))
  = if expired_at (clock w1) (cookie_file w1) || jar_empty (cookies w1)
    then [login_request client]
    else [].
Proof.
  intros Hup Hre Hinit. unfold main.
  rewrite (bind_ok _ _ _ _ _ Hinit).
  rewrite (bind_ok _ _ _ _ _ (is_cookie_expired_run w1)).
  rewrite (bind_ok (gets cookies) _ (log EvExpiryCheck w1) (cookies w1) _ eq_refl).
  rewrite Hup, Hre.
  destruct (expired_at (clock w1) (cookie_file w1) || jar_empty (cookies w1)).
  - unfold bind.
    destruct (login_run client (log EvExpiryCheck w1)) as (_ & d & Hd & Hr).
    destruct (login client (log EvExpiryCheck w1)) as [[[] | e] w2];
      unfold ret; cbn [snd] in *;
      rewrite (new_events_app w1 w2 (EvExpiryCheck :: EvHttp (login_request client) :: d))
        by (rewrite Hd; cbn; now rewrite <- app_assoc);
      cbn; now rewrite Hr.
  - cbn. now rewrite (new_events_app w1 _ [EvExpiryCheck]).
Qed.

Lemma main_without_action_witness :
  requests (new_events world_with_env
              (snd (main (mkArgs None None None false) world_with_env)))
  = [login_request (mkClient "env-user" "env-secret")].
Proof.
  exact (main_without_action (mkArgs None None None false) world_with_env world_with_env
           (mkClient "env-user" "env-secret") eq_refl eq_refl eq_refl).
Defined.

(** X18.  Run as a script, main.py does what the command line program does
    when it is started without any flag: the same result in the same
    world. *)
Theorem main_py_is_main_without_flags (w : World) :
  main_py w = main (mkArgs None None None false) w.
Proof.
  unfold main_py, main. cbn [arg_user arg_password arg_upload arg_refresh provided].
  destruct (__init__ None None w) as [[client | e] w1] eqn:Hinit.
  - rewrite !(bind_ok _ _ _ _ _ Hinit).
    rewrite !(bind_ok _ _ _ _ _ (is_cookie_expired_run w1)).
    rewrite !(bind_ok (gets cookies) _ (log EvExpiryCheck w1) (cookies w1) _ eq_refl).
    unfold bind.
    destruct (expired_at (clock w1) (cookie_file w1) || jar_empty (cookies w1)).
    + now destruct (login client (log EvExpiryCheck w1)) as [[[] | e] w2].
    + reflexivity.
  - now rewrite !(bind_raise _ _ _ _ _ Hinit).
Qed.

(** ** More on the expiry check and on login *)

(** X19.  A cookie file that parses to something other than a list of
    cookie objects (a number, [null], a non-empty object or string, a list
    that starts with a non-object) fails the expiry check at every time:
    the error inside the check is turned into "expired". *)
Theorem malformed_file_is_expired (doc : json) (now : Z) :
  malformed doc = true -> expired_at now (FJson doc) = true.
Proof.
  destruct doc as [| b | n | s | items | fields]; cbn [malformed]; try reflexivity.
  - destruct s as [| a s]; [discriminate | reflexivity].
  - destruct items as [| c rest]; [discriminate |].
    destruct c; try discriminate; reflexivity.
  - destruct fields as [| [k v] rest]; [discriminate | reflexivity].
Qed.

Lemma malformed_file_is_expired_witness :
  expired_at 100 (FJson (JObj [("name", JStr "nauk_at"); ("expiry", JInt 5000)])) = true.
Proof.
  apply (malformed_file_is_expired
           (JObj [("name", JStr "nauk_at"); ("expiry", JInt 5000)]) 100).
  reflexivity.
Defined.

Lemma scan_expiry_monotone (t t' : Z) (cs : list json) :
  t <= t' -> scan_expiry t cs <> Ok false -> scan_expiry t' cs <> Ok false.
Proof.
  intros Ht. induction cs as [| c rest IH]; [easy |].
  cbn [scan_expiry].
  destruct (get c "expiry" (JInt 0)) as [exp |]; cbn [rbind]; [| easy].
  destruct (truthy exp); [| exact IH].
  destruct exp as [| b | e | | |]; cbn [lt_int rbind]; try easy.
  - destruct ((if b then 1 else 0) <? t) eqn:E; destruct ((if b then 1 else 0) <? t') eqn:E'.
    + easy.
    + apply Z.ltb_lt in E. apply Z.ltb_ge in E'. lia.
    + intros _. destruct (getitem c "name"); cbn; discriminate.
    + exact IH.
  - destruct (e <? t) eqn:E; destruct (e <? t') eqn:E'.
    + easy.
    + apply Z.ltb_lt in E. apply Z.ltb_ge in E'. lia.
    + intros _. destruct (getitem c "name"); cbn; discriminate.
    + exact IH.
Qed.

(** X20.  The expiry check is monotone in time: a cookie file that fails
    the check at some time fails it at every later time. *)
Theorem expiry_is_monotone (f : FileState) (t t' : Z) :
  t <= t' -> expired_at t f = true -> expired_at t' f = true.
Proof.
  intros Ht. destruct f as [| | doc]; try reflexivity.
  cbn [expired_at].
  destruct (iter doc) as [cs |]; cbn [rbind]; [| reflexivity].
  pose proof (scan_expiry_monotone t t' cs Ht) as Hmono.
  destruct (scan_expiry t cs) as [[|] |]; destruct (scan_expiry t' cs) as [[|] |];
    try reflexivity; try discriminate; intros _; exfalso; now apply Hmono.
Qed.

Lemma expiry_is_monotone_witness :
  expired_at 9000 (FJson (JArr [JObj [("name", JStr "nauk_at"); ("expiry", JInt 4600)]]))
  = true.
Proof.
  apply (expiry_is_monotone
           (FJson (JArr [JObj [("name", JStr "nauk_at"); ("expiry", JInt 4600)]]))
           4601 9000).
  - lia.
  - reflexivity.
Defined.

(** X21.  [login] sends exactly one request, the login request with the
    credentials of the client, and consumes exactly one reply, whether it
    returns or raises: it never retries. *)
Theorem login_sends_one_request (self : Client) (w : World) :
  requests (new_events w (snd (login self w))) = [login_request self]
  /\ server (snd (login self w)) = tl (server w).
Proof.
  destruct (login_run self w) as (Hs & d & Hd & Hr).
  split; [| exact Hs].
  rewrite (new_events_app _ _ _ Hd). cbn. now rewrite Hr.
Qed.
